(** * Cloud synchronisation of the portfolio application

    A shallow embedding of [src/app/lib/supabaseClient.ts],
    [src/app/lib/cloudSync.ts] and of the throttled revision of the
    [CloudSyncPanel] component, followed by the properties of the
    synchronisation engine that the specification states.

    Conventions of the embedding:
    - [localStorage] and a payload object ([Record<string, string>]) are
      finite maps from strings to strings;
    - an expression that may throw returns a [Completion];
    - the clock ([Date.now()]), the focus test and the fate of a network
      request are inputs of the function that models a callback;
    - React state and refs of the panel are the fields of [Panel]; the remote
      table and the log of requests sent to it are the fields of [Cloud];
    - [localStorage] is taken to work (its calls return); [sessionStorage] may
      refuse every call; the clock readings inside one synchronous stretch of
      a callback are one instant. *)

From Stdlib Require Import ZArith NArith Lia DecimalString DecimalN.
From stdpp Require Import gmap strings list fin_maps.

Local Open Scope string_scope.

(** ** Host language *)

(** A thrown value; only its message is ever looked at. *)
Record JsError := { error_message : string }.

(** Result of evaluating an expression that may throw. *)
Inductive Completion (A : Type) : Type :=
| Return (a : A)
| Throw (e : JsError).
Arguments Return {A} a.
Arguments Throw {A} e.

(** The numbers the engine computes with: integers, or NaN. *)
Inductive JsNumber : Type :=
| NaN
| Num (z : Z).

(** [String(n)] for a non-negative integer. *)
Definition String_of_N (n : N) : string :=
  NilZero.string_of_uint (N.to_uint n).

(** [Number(s)] on the strings the engine stores: the empty string is 0, a
    string of decimal digits is its value, anything else is taken as NaN. *)
Definition Number (s : string) : JsNumber :=
  match s with
  | "" => Num 0
  | _ => match NilZero.uint_of_string s with
         | Some d => Num (Z.of_N (N.of_uint d))
         | None => NaN
         end
  end.

(** [Object.keys(o)]. *)
Definition Object_keys (o : gmap string string) : list string :=
  (map_to_list o).*1.

(** ** localStorage *)

Module localStorage.

Definition getItem (key : string) (ls : gmap string string) : option string :=
  ls !! key.

Definition setItem (key value : string) (ls : gmap string string)
  : gmap string string :=
  <[key := value]> ls.

End localStorage.

(** ** supabaseClient.ts *)

Record Client := createClient { supabaseUrl : string; supabaseAnonKey : string }.

(** Truthiness of a [string | undefined]. *)
Definition truthy (s : option string) : bool :=
  match s with
  | Some s => negb (String.eqb s "")
  | None => false
  end.

Definition isSupabaseConfigured (url key : option string) : bool :=
  truthy url && truthy key.

Definition supabase (url key : option string) : option Client :=
  if isSupabaseConfigured url key
  then Some (createClient (default "" url) (default "" key))
  else None.

(** ** cloudSync.ts *)

Definition SYNC_KEYS : list string :=
  ["stockPortfolio"; "stockWatchlist"; "bankAccounts"; "assetTrend"]
  ++ map (λ i, "monthlyBudget_" +:+ String_of_N (N.of_nat (i + 1))) (seq 0 12).

Definition readLocalStoragePayload (ls : gmap string string)
  : gmap string string :=
  foldl (λ payload key,
           match localStorage.getItem key ls with
           | Some v => <[key := v]> payload
           | None => payload
           end)
        ∅ SYNC_KEYS.

(** The loop runs over the own keys of [payload], so [payload[key]] is the
    value bound to [key]: the model walks the bindings. *)
Definition writeLocalStoragePayload (payload ls : gmap string string)
  : gmap string string :=
  foldl (λ ls kv, localStorage.setItem kv.1 kv.2 ls) ls (map_to_list payload).

(** One row of the table [user_state]; [updated_at] is the instant that
    [new Date().toISOString()] denotes. *)
Record Row := { row_payload : gmap string string; updated_at : N }.

Inductive Request : Type :=
| Select (user_id : string)
| Upsert (user_id : string) (row : Row).

(** The remote side: the table, keyed by [user_id], and every request that
    reached the network, most recent first. *)
Record Cloud := { user_state : gmap string Row; requests : list Request }.

Definition sent (r : Request) (c : Cloud) : Cloud :=
  {| user_state := user_state c; requests := r :: requests c |}.

Definition is_upsert (r : Request) : bool :=
  match r with Upsert _ _ => true | Select _ => false end.

Definition upserts (c : Cloud) : nat :=
  length (filter (λ r, is_upsert r = true) (requests c)).

(** [fault] is the [error] field of the response, if any. *)
Definition pullFromCloud (sb : option Client) (userId : string)
    (fault : option JsError) (c : Cloud)
  : Completion (option (gmap string string)) * Cloud :=
  match sb with
  | None => (Return None, c)
  | Some _ =>
      let c' := sent (Select userId) c in
      match fault with
      | Some e => (Throw e, c')
      | None =>
          match user_state c !! userId with
          | None => (Return None, c')
          | Some row => (Return (Some (row_payload row)), c')
          end
      end
  end.

Definition pushToCloud (sb : option Client) (userId : string)
    (payload : gmap string string) (now : N) (fault : option JsError) (c : Cloud)
  : Completion unit * Cloud :=
  match sb with
  | None => (Return tt, c)
  | Some _ =>
      let row := {| row_payload := payload; updated_at := now |} in
      match fault with
      | Some e => (Throw e, sent (Upsert userId row) c)
      | None =>
          (Return tt,
           {| user_state := <[userId := row]> (user_state c);
              requests := Upsert userId row :: requests c |})
      end
  end.

(** [Object.keys(cloudPayload).every((k) => localPayload[k] === cloudPayload[k])].
    A key that [localPayload] lacks reads as [undefined], which is never equal
    to the string that [cloudPayload] binds. *)
Definition isSame (cloudPayload localPayload : gmap string string) : bool :=
  forallb (λ k, bool_decide (localPayload !! k = cloudPayload !! k))
          (Object_keys cloudPayload).

(** ** sessionStorage *)

(** Session storage either refuses every access (each call throws) or holds
    items. *)
Inductive SessionStorage : Type :=
| SessionBlocked
| SessionItems (items : gmap string string).

Definition SecurityError : JsError := {| error_message := "SecurityError" |}.

Module sessionStorage.

Definition getItem (key : string) (ss : SessionStorage)
  : Completion (option string) :=
  match ss with
  | SessionBlocked => Throw SecurityError
  | SessionItems items => Return (items !! key)
  end.

Definition setItem (key value : string) (ss : SessionStorage)
  : Completion unit * SessionStorage :=
  match ss with
  | SessionBlocked => (Throw SecurityError, ss)
  | SessionItems items => (Return tt, SessionItems (<[key := value]> items))
  end.

Definition removeItem (key : string) (ss : SessionStorage)
  : Completion unit * SessionStorage :=
  match ss with
  | SessionBlocked => (Throw SecurityError, ss)
  | SessionItems items => (Return tt, SessionItems (delete key items))
  end.

End sessionStorage.

(** ** CloudSyncPanel: the reload throttle *)

Definition AUTO_RELOAD_INTERVAL_MS : Z := 60 * 60 * 1000.
Definition AUTO_RELOAD_TS_KEY : string := "cloudSyncLastAutoReloadAt".

(** [a || b] on an optional string: [null] and the empty string are falsy. *)
Definition or_else (a : option string) (b : string) : string :=
  match a with
  | Some s => if String.eqb s "" then b else s
  | None => b
  end.

Definition getLastAutoReloadAt (ss : SessionStorage) : JsNumber :=
  match sessionStorage.getItem AUTO_RELOAD_TS_KEY ss with
  | Return v => Number (or_else v "0")
  | Throw _ => Num 0
  end.

(** [Date.now() - last >= AUTO_RELOAD_INTERVAL_MS]; a comparison with NaN is
    false. *)
Definition canAutoReloadNow (now : N) (ss : SessionStorage) : bool :=
  match getLastAutoReloadAt ss with
  | Num last => (AUTO_RELOAD_INTERVAL_MS <=? Z.of_N now - last)%Z
  | NaN => false
  end.

Definition markAutoReloadNow (now : N) (ss : SessionStorage) : SessionStorage :=
  (sessionStorage.setItem AUTO_RELOAD_TS_KEY (String_of_N now) ss).2.

Definition clearAutoReloadMark (ss : SessionStorage) : SessionStorage :=
  (sessionStorage.removeItem AUTO_RELOAD_TS_KEY ss).2.

(** ** CloudSyncPanel: state *)

Inductive Status : Type := idle | sending | waiting | syncing | ready | error.

#[global] Instance Status_eq_dec : EqDecision Status.
Proof. solve_decision. Defined.

(** The texts passed to [setMessage], by the place that sets them. *)
Inductive Message : Type :=
| MsgNone                 (* initial empty text *)
| MsgLoading              (* bootstrap: loading the cloud copy *)
| MsgMergedReloading      (* bootstrap: merged, reloading once *)
| MsgChecked              (* bootstrap: nothing differs *)
| MsgMergedThrottled      (* bootstrap: merged, refresh by hand *)
| MsgSyncOn               (* bootstrap: sync is on *)
| MsgFailure (e : JsError)(* bootstrap: the error's message *)
| MsgChangedReloading     (* periodic pull: changed elsewhere, reloading *)
| MsgChangedThrottled     (* periodic pull: changed elsewhere, refresh by hand *)
| MsgSignedOut.

(** A browser tab that shows the panel: the two storages, the refs and state
    of the component, the instants at which a reload timer was armed
    ([setTimeout(() => window.location.reload(), 600)]), newest first, and what
    [console.error] received. *)
Record Panel := {
  localStore : gmap string string;
  sessionStore : SessionStorage;
  lastPushedRef : string;
  pushingRef : bool;
  status : Status;
  message : Message;
  lastSyncText : option N;
  reloadTimers : list N;
  console : list JsError
}.

Definition set_localStore (ls : gmap string string) (p : Panel) : Panel :=
  {| localStore := ls; sessionStore := sessionStore p;
     lastPushedRef := lastPushedRef p; pushingRef := pushingRef p;
     status := status p; message := message p; lastSyncText := lastSyncText p;
     reloadTimers := reloadTimers p; console := console p |}.

Definition set_sessionStore (ss : SessionStorage) (p : Panel) : Panel :=
  {| localStore := localStore p; sessionStore := ss;
     lastPushedRef := lastPushedRef p; pushingRef := pushingRef p;
     status := status p; message := message p; lastSyncText := lastSyncText p;
     reloadTimers := reloadTimers p; console := console p |}.

Definition set_lastPushedRef (json : string) (p : Panel) : Panel :=
  {| localStore := localStore p; sessionStore := sessionStore p;
     lastPushedRef := json; pushingRef := pushingRef p;
     status := status p; message := message p; lastSyncText := lastSyncText p;
     reloadTimers := reloadTimers p; console := console p |}.

Definition set_pushingRef (b : bool) (p : Panel) : Panel :=
  {| localStore := localStore p; sessionStore := sessionStore p;
     lastPushedRef := lastPushedRef p; pushingRef := b;
     status := status p; message := message p; lastSyncText := lastSyncText p;
     reloadTimers := reloadTimers p; console := console p |}.

Definition setStatus (s : Status) (p : Panel) : Panel :=
  {| localStore := localStore p; sessionStore := sessionStore p;
     lastPushedRef := lastPushedRef p; pushingRef := pushingRef p;
     status := s; message := message p; lastSyncText := lastSyncText p;
     reloadTimers := reloadTimers p; console := console p |}.

Definition setMessage (m : Message) (p : Panel) : Panel :=
  {| localStore := localStore p; sessionStore := sessionStore p;
     lastPushedRef := lastPushedRef p; pushingRef := pushingRef p;
     status := status p; message := m; lastSyncText := lastSyncText p;
     reloadTimers := reloadTimers p; console := console p |}.

Definition setLastSyncText (t : N) (p : Panel) : Panel :=
  {| localStore := localStore p; sessionStore := sessionStore p;
     lastPushedRef := lastPushedRef p; pushingRef := pushingRef p;
     status := status p; message := message p; lastSyncText := Some t;
     reloadTimers := reloadTimers p; console := console p |}.

Definition scheduleReload (now : N) (p : Panel) : Panel :=
  {| localStore := localStore p; sessionStore := sessionStore p;
     lastPushedRef := lastPushedRef p; pushingRef := pushingRef p;
     status := status p; message := message p; lastSyncText := lastSyncText p;
     reloadTimers := now :: reloadTimers p; console := console p |}.

Definition console_error (e : JsError) (p : Panel) : Panel :=
  {| localStore := localStore p; sessionStore := sessionStore p;
     lastPushedRef := lastPushedRef p; pushingRef := pushingRef p;
     status := status p; message := message p; lastSyncText := lastSyncText p;
     reloadTimers := reloadTimers p; console := e :: console p |}.

(** The component as it mounts on a page load: refs and state take their
    initial values, the storages are those of the browser. *)
Definition mount (ls : gmap string string) (ss : SessionStorage) : Panel :=
  {| localStore := ls; sessionStore := ss; lastPushedRef := "";
     pushingRef := false; status := idle; message := MsgNone;
     lastSyncText := None; reloadTimers := []; console := [] |}.

(** ** CloudSyncPanel: callbacks *)

Inductive PullOutcome : Type :=
| NoRemoteData    (* no row, or a payload without keys *)
| UpToDate        (* every key of the payload agrees with the local value *)
| Merged          (* the payload was written to localStorage *)
| PullFailed (e : JsError).

Inductive PushOutcome : Type :=
| InFlight        (* pushingRef.current was set *)
| Unchanged       (* json === lastPushedRef.current *)
| WhileTyping     (* focus is in an INPUT or TEXTAREA *)
| Pushed
| PushFailed (e : JsError).

Inductive BootOutcome : Type :=
| BootNotRun                        (* the effect returned at a guard *)
| BootPullFailed (e : JsError)
| BootCancelled
| BootReload                        (* merged, reload timer armed, return *)
| BootPushFailed (pulled : PullOutcome) (e : JsError)
| BootReady (pulled : PullOutcome).

(** The timers of the two periodic effects exist when all three guards pass. *)
Definition tickersInstalled (user : option string) (st : Status)
    (sb : option Client) : bool :=
  match user, sb with
  | Some _, Some _ => negb (bool_decide (st = error))
  | _, _ => false
  end.

(** The branch taken after the periodic pull has written the payload. *)
Definition reloadOrNotify (now : N) (p : Panel) : Panel :=
  if canAutoReloadNow now (sessionStore p)
  then scheduleReload now
         (setMessage MsgChangedReloading
            (set_sessionStore (markAutoReloadNow now (sessionStore p)) p))
  else setMessage MsgChangedThrottled p.

(** Body of the periodic pull timer. *)
Definition pullTick (sb : option Client) (userId : string) (now : N)
    (fault : option JsError) (p : Panel) (c : Cloud)
  : PullOutcome * Panel * Cloud :=
  match pullFromCloud sb userId fault c with
  | (Throw e, c) => (PullFailed e, console_error e p, c)
  | (Return None, c) => (NoRemoteData, p, c)
  | (Return (Some cloudPayload), c) =>
      if bool_decide (length (Object_keys cloudPayload) = 0)
      then (NoRemoteData, p, c)
      else
        let localPayload := readLocalStoragePayload (localStore p) in
        if isSame cloudPayload localPayload
        then (UpToDate, p, c)
        else
          let p := set_localStore
                     (writeLocalStoragePayload cloudPayload (localStore p)) p in
          (Merged, reloadOrNotify now p, c)
  end.

Section Engine.

(** [JSON.stringify] on payload objects. Its text depends on the order of
    the properties, which finite maps do not record; the panel only tests two
    of its results for equality, so the callbacks take it as given. *)
Variable JSON_stringify : gmap string string → string.

(** The [finally] block of the push timer. *)
Definition pushFinally (p : Panel) : Panel := set_pushingRef false p.

(** The push timer up to its [await]: either the callback is over, or a
    request for [payload] is on its way and [json] is kept for later. *)
Inductive PushStart : Type :=
| PushOver (o : PushOutcome)
| PushAwait (payload : gmap string string) (json : string).

Definition pushTick_begin (typing : bool) (p : Panel) : PushStart * Panel :=
  if pushingRef p then (PushOver InFlight, pushFinally p)
  else
    let payload := readLocalStoragePayload (localStore p) in
    let json := JSON_stringify payload in
    if String.eqb json (lastPushedRef p) then (PushOver Unchanged, pushFinally p)
    else if typing then (PushOver WhileTyping, pushFinally p)
    else (PushAwait payload json, set_pushingRef true p).

(** The push timer from the point where [pushToCloud] has settled. Setting
    the status to [ready] unless it is [ready] leaves it [ready] either way. *)
Definition pushTick_resume (json : string) (now : N) (r : Completion unit)
    (p : Panel) : PushOutcome * Panel :=
  match r with
  | Return _ =>
      (Pushed,
       pushFinally (setStatus ready (setLastSyncText now (set_lastPushedRef json p))))
  | Throw e => (PushFailed e, pushFinally (console_error e p))
  end.

(** Body of the periodic push timer, when nothing else runs during its
    [await]. *)
Definition pushTick (sb : option Client) (userId : string) (typing : bool)
    (now : N) (fault : option JsError) (p : Panel) (c : Cloud)
  : PushOutcome * Panel * Cloud :=
  match pushTick_begin typing p with
  | (PushOver o, p) => (o, p, c)
  | (PushAwait payload json, p) =>
      let '(r, c) := pushToCloud sb userId payload now fault c in
      let '(o, p) := pushTick_resume json now r p in
      (o, p, c)
  end.

(** The [catch] block of the bootstrap effect. *)
Definition bootstrapCatch (e : JsError) (p : Panel) : Panel :=
  setMessage (MsgFailure e) (setStatus error (console_error e p)).

(** The tail of the bootstrap effect: upload the local values as baseline. *)
Definition bootstrapPush (sb : option Client) (userId : string) (pushNow : N)
    (pushFault : option JsError) (pulled : PullOutcome) (p : Panel) (c : Cloud)
  : BootOutcome * Panel * Cloud :=
  let localPayload := readLocalStoragePayload (localStore p) in
  match pushToCloud sb userId localPayload pushNow pushFault c with
  | (Throw e, c) => (BootPushFailed pulled e, bootstrapCatch e p, c)
  | (Return _, c) =>
      (BootReady pulled,
       setMessage MsgSyncOn
         (setStatus ready
            (setLastSyncText pushNow
               (set_lastPushedRef (JSON_stringify localPayload) p))),
       c)
  end.

(** The effect that runs when the session is known: [loading] and [user] come
    from the session hook, [cancelled] is the flag as read after the pull. *)
Definition bootstrap (loading : bool) (user : option string)
    (sb : option Client) (now pushNow : N) (pullFault pushFault : option JsError)
    (cancelled : bool) (p : Panel) (c : Cloud)
  : BootOutcome * Panel * Cloud :=
  match loading, user, sb with
  | false, Some userId, Some _ =>
      let p := setMessage MsgLoading (setStatus syncing p) in
      match pullFromCloud sb userId pullFault c with
      | (Throw e, c) => (BootPullFailed e, bootstrapCatch e p, c)
      | (Return cloudPayload, c) =>
          if cancelled then (BootCancelled, p, c)
          else
            match cloudPayload with
            | Some cloudPayload =>
                if bool_decide (0 < length (Object_keys cloudPayload))
                then
                  let localBefore := readLocalStoragePayload (localStore p) in
                  let same := isSame cloudPayload localBefore in
                  let p :=
                    if same then p
                    else set_localStore
                           (writeLocalStoragePayload cloudPayload (localStore p)) p in
                  if negb same && canAutoReloadNow now (sessionStore p)
                  then
                    (BootReload,
                     scheduleReload now
                       (setMessage MsgMergedReloading
                          (set_sessionStore
                             (markAutoReloadNow now (sessionStore p)) p)),
                     c)
                  else
                    bootstrapPush sb userId pushNow pushFault
                      (if same then UpToDate else Merged)
                      (setMessage
                         (if same then MsgChecked else MsgMergedThrottled) p)
                      c
                else bootstrapPush sb userId pushNow pushFault NoRemoteData p c
            | None => bootstrapPush sb userId pushNow pushFault NoRemoteData p c
            end
      end
  | _, _, _ => (BootNotRun, p, c)
  end.

End Engine.

(** [signOut], past its call to the identity provider. *)
Definition signOut (sb : option Client) (p : Panel) : Panel :=
  match sb with
  | None => p
  | Some _ =>
      setMessage MsgSignedOut
        (setStatus idle
           (set_sessionStore (clearAutoReloadMark (sessionStore p)) p))
  end.

(** Whether the bootstrap effect called [pushToCloud]. *)
Definition bootPushed (o : BootOutcome) : bool :=
  match o with
  | BootReady _ | BootPushFailed _ _ => true
  | _ => false
  end.

(** Whether the bootstrap pull came back with the given outcome. *)
Definition bootPulled (o : BootOutcome) : option PullOutcome :=
  match o with
  | BootReady pulled | BootPushFailed pulled _ => Some pulled
  | BootReload => Some Merged
  | BootPullFailed e => Some (PullFailed e)
  | BootCancelled | BootNotRun => None
  end.

(** The payload that a settled pull hands to the merge step; nothing when
    the request failed or came back without a row. *)
Definition delivered (r : Completion (option (gmap string string)))
  : gmap string string :=
  match r with
  | Return (Some cloudPayload) => cloudPayload
  | _ => ∅
  end.

(** The outcome of a pull, read off the response and localStorage: what the
    two callbacks that pull are expected to report. *)
Definition pullOutcome (r : Completion (option (gmap string string)))
    (ls : gmap string string) : PullOutcome :=
  match r with
  | Throw e => PullFailed e
  | Return None => NoRemoteData
  | Return (Some cloudPayload) =>
      if decide (cloudPayload = ∅) then NoRemoteData
      else if decide (cloudPayload ⊆ readLocalStoragePayload ls) then UpToDate
      else Merged
  end.

(** ** Executions *)

(** The page is loaded again in the same tab: the component starts afresh,
    both storages persist; the two logs kept for observation persist too. *)
Definition pageLoad (p : Panel) : Panel :=
  {| localStore := localStore p; sessionStore := sessionStore p;
     lastPushedRef := ""; pushingRef := false; status := idle;
     message := MsgNone; lastSyncText := None;
     reloadTimers := reloadTimers p; console := console p |}.

(** What can happen to a tab and the remote table, one callback at a time. *)
Inductive Event : Type :=
| EvBootstrap (loading : bool) (user : option string) (now pushNow : N)
    (pullFault pushFault : option JsError) (cancelled : bool)
| EvPullTick (userId : string) (now : N) (fault : option JsError)
| EvPushTick (userId : string) (typing : bool) (now : N)
    (fault : option JsError)
| EvPageLoad
| EvEdit (key value : string)          (* a screen of the app saves a value *)
| EvOtherDevice (userId : string) (ls : gmap string string) (now : N).
                                       (* another device uploads its snapshot *)

Definition step (JSON_stringify : gmap string string → string)
    (sb : option Client) (pc : Panel * Cloud) (e : Event) : Panel * Cloud :=
  let '(p, c) := pc in
  match e with
  | EvBootstrap loading user now pushNow pullFault pushFault cancelled =>
      let '(_, p, c) :=
        bootstrap JSON_stringify loading user sb now pushNow pullFault pushFault
          cancelled p c in
      (p, c)
  | EvPullTick userId now fault =>
      let '(_, p, c) := pullTick sb userId now fault p c in (p, c)
  | EvPushTick userId typing now fault =>
      let '(_, p, c) := pushTick JSON_stringify sb userId typing now fault p c in
      (p, c)
  | EvPageLoad => (pageLoad p, c)
  | EvEdit key value =>
      (set_localStore (localStorage.setItem key value (localStore p)) p, c)
  | EvOtherDevice userId ls now =>
      (p, (pushToCloud sb userId (readLocalStoragePayload ls) now None c).2)
  end.

Definition run (JSON_stringify : gmap string string → string)
    (sb : option Client) (es : list Event) (pc : Panel * Cloud) : Panel * Cloud :=
  foldl (step JSON_stringify sb) pc es.

(** The clock reading of the events that take a reload decision. *)
Definition decisionTime (e : Event) : option N :=
  match e with
  | EvBootstrap _ _ now _ _ _ _ => Some now
  | EvPullTick _ now _ => Some now
  | _ => None
  end.

(** The clock does not run backwards along the events. *)
Fixpoint clockOrdered (since : N) (es : list Event) : Prop :=
  match es with
  | [] => True
  | e :: es =>
      match decisionTime e with
      | Some t => (since ≤ t)%N ∧ clockOrdered t es
      | None => clockOrdered since es
      end
  end.

(** Armed reload timers, newest first, lie at least one interval apart. *)
Fixpoint spaced (timers : list N) : Prop :=
  match timers with
  | t :: ((t' :: _) as rest) =>
      (Z.of_N t' + AUTO_RELOAD_INTERVAL_MS ≤ Z.of_N t)%Z ∧ spaced rest
  | _ => True
  end.

(** A payload that binds synced keys only. *)
Definition payloadSynced (payload : gmap string string) : Prop :=
  ∀ k, is_Some (payload !! k) → k ∈ SYNC_KEYS.

(** Every stored row and every upsert sent so far carries synced keys only. *)
Definition cloudSynced (c : Cloud) : Prop :=
  (∀ userId row, user_state c !! userId = Some row →
                 payloadSynced (row_payload row))
  ∧ (∀ userId row, Upsert userId row ∈ requests c →
                   payloadSynced (row_payload row)).

(** The remote side with the row of [userId] set, and with it removed. *)
Definition with_row (userId : string) (row : Row) (c : Cloud) : Cloud :=
  {| user_state := <[userId := row]> (user_state c); requests := requests c |}.

Definition without_row (userId : string) (c : Cloud) : Cloud :=
  {| user_state := delete userId (user_state c); requests := requests c |}.

(** What one callback may do to the throttle: leave the mark and the timers
    alone, or find the reload allowed, store the mark and arm a timer. *)
Definition throttleStep (now : N) (p p' : Panel) : Prop :=
  (sessionStore p' = sessionStore p ∧ reloadTimers p' = reloadTimers p)
  ∨ (canAutoReloadNow now (sessionStore p) = true
     ∧ sessionStore p' = markAutoReloadNow now (sessionStore p)
     ∧ reloadTimers p' = now :: reloadTimers p).

(** Session storage works, the timers armed so far are spaced, and the mark
    is the instant of the newest one, which is not in the future. *)
Definition throttleInv (since : N) (p : Panel) : Prop :=
  ∃ items,
    sessionStore p = SessionItems items
    ∧ spaced (reloadTimers p)
    ∧ match reloadTimers p with
      | [] => True
      | t :: _ =>
          items !! AUTO_RELOAD_TS_KEY = Some (String_of_N t) ∧ (t ≤ since)%N
      end.

(** ** Sample data *)

(** A digest for the examples: the bindings, one after the other. *)
Definition sample_stringify (o : gmap string string) : string :=
  "{" +:+ String.concat "," (map (λ kv, kv.1 +:+ ":" +:+ kv.2) (map_to_list o))
      +:+ "}".

Definition sample_client : Client :=
  createClient "https://example.supabase.co" "anon-key".

Definition sample_user : string := "user-1".

Definition no_cloud : Cloud := {| user_state := ∅; requests := [] |}.

Definition cloud_with (payload : gmap string string) (t : N) : Cloud :=
  {| user_state := {[ sample_user := {| row_payload := payload; updated_at := t |} ]};
     requests := [] |}.

Definition store_bank_old : gmap string string := {[ "bankAccounts" := "old" ]}.

Definition session_empty : SessionStorage := SessionItems ∅.

Definition session_marked (t : N) : SessionStorage :=
  SessionItems {[ AUTO_RELOAD_TS_KEY := String_of_N t ]}.

(** A store with a key of the app that is not synced. *)
Definition store_with_theme : gmap string string :=
  {[ "theme" := "dark"; "bankAccounts" := "old" ]}.

(** A session on one device, with an upload from a second one in between. *)
Definition sample_session : list Event :=
  [ EvBootstrap false (Some sample_user) 10 11 None None false;
    EvEdit "bankAccounts" "new";
    EvPushTick sample_user false 20 None;
    EvOtherDevice sample_user {[ "assetTrend" := "a1" ]} 25;
    EvPullTick sample_user 30 None ].

(** Bootstrap on a tab that reloaded half a second ago, while the remote
    copy of [bankAccounts] differs from the local one. *)
Definition throttled_bootstrap : BootOutcome * Panel * Cloud :=
  bootstrap sample_stringify false (Some sample_user) (Some sample_client)
    1000500 1000600 None None false
    (mount store_bank_old (session_marked 1000000))
    (cloud_with {[ "bankAccounts" := "v1" ]} 7).

(** Two devices take turns during a day of the first one, starting at [T0]:
    its bootstrap merges and reloads; after the reload it is up to date; the
    second device uploads, and a later page load merges again, two minutes
    after the reload; the second device uploads once more and the periodic
    pull, more than an hour after the reload, merges a third time. *)
Definition T0 : N := 1700000000000.

Definition sample_day : list Event :=
  [ EvBootstrap false (Some sample_user) T0 (T0 + 100) None None false;
    EvPageLoad;
    EvBootstrap false (Some sample_user) (T0 + 1000) (T0 + 1100) None None false;
    EvOtherDevice sample_user {[ "bankAccounts" := "v2" ]} (T0 + 60000);
    EvPageLoad;
    EvBootstrap false (Some sample_user) (T0 + 120000) (T0 + 120100) None None
      false;
    EvOtherDevice sample_user {[ "bankAccounts" := "v3" ]} (T0 + 3000000);
    EvPullTick sample_user (T0 + 3720000) None ].

Definition sample_day_end (ss : SessionStorage) : Panel * Cloud :=
  run sample_stringify (Some sample_client) sample_day
    (mount store_bank_old ss, cloud_with {[ "bankAccounts" := "v1" ]} 7).

(** ** App.tsx: the save button *)

Inductive SaveMessage : Type := SaveMsgNone | SaveMsgDone | SaveMsgFailed.

Inductive SaveOutcome : Type :=
| SaveNotConfigured     (* alert: the backend is not set up *)
| SaveWhileLoading      (* the session is not known yet: plain return *)
| SaveSignedOut         (* alert: log in first *)
| SaveDone
| SaveFailed (e : JsError).

(** State of [App] that the save button touches, and what it logs. *)
Record SaveState := {
  saving : bool;
  saveMsg : SaveMessage;
  save_console : list JsError
}.

(** [onSave]: the credentials decide [isSupabaseConfigured] and [supabase];
    [authLoading] and [user] come from the session hook. *)
Definition onSave (url key : option string) (authLoading : bool)
    (user : option string) (now : N) (fault : option JsError) (a : SaveState)
    (ls : gmap string string) (c : Cloud) : SaveOutcome * SaveState * Cloud :=
  if negb (isSupabaseConfigured url key)
     || negb (bool_decide (is_Some (supabase url key)))
  then (SaveNotConfigured, a, c)
  else if authLoading then (SaveWhileLoading, a, c)
  else
    match user with
    | None => (SaveSignedOut, a, c)
    | Some userId =>
        let payload := readLocalStoragePayload ls in
        match pushToCloud (supabase url key) userId payload now fault c with
        | (Return _, c) =>
            (SaveDone,
             {| saving := false; saveMsg := SaveMsgDone;
                save_console := save_console a |}, c)
        | (Throw e, c) =>
            (SaveFailed e,
             {| saving := false; saveMsg := SaveMsgFailed;
                save_console := e :: save_console a |}, c)
        end
    end.

(** ** CloudSyncPanel, one-shot revision: reload once per component life *)

Module OneShot.

(** The component of this revision: a tab, of which it leaves the in-flight
    flag and session storage alone, and one more ref. *)
Record Component := {
  tab : Panel;
  reloadedAfterPullRef : bool
}.

(** The page is loaded again: the ref starts at [false] like the rest. *)
Definition remount (q : Component) : Component :=
  {| tab := pageLoad (tab q); reloadedAfterPullRef := false |}.

(** The bootstrap effect of this revision: a remote payload with keys is
    written without a comparison; the reload is guarded by the ref alone. *)
Definition bootstrap (JSON_stringify : gmap string string → string)
    (loading : bool) (user : option string) (sb : option Client)
    (now pushNow : N) (pullFault pushFault : option JsError) (cancelled : bool)
    (q : Component) (c : Cloud) : BootOutcome * Component * Cloud :=
  let keep p := {| tab := p; reloadedAfterPullRef := reloadedAfterPullRef q |} in
  let upload userId pulled p c :=
    let '(o, p, c) :=
      bootstrapPush JSON_stringify sb userId pushNow pushFault pulled p c in
    (o, keep p, c) in
  match loading, user, sb with
  | false, Some userId, Some _ =>
      let p := setMessage MsgLoading (setStatus syncing (tab q)) in
      match pullFromCloud sb userId pullFault c with
      | (Throw e, c) => (BootPullFailed e, keep (bootstrapCatch e p), c)
      | (Return cloudPayload, c) =>
          if cancelled then (BootCancelled, keep p, c)
          else
            match cloudPayload with
            | Some cloudPayload =>
                if bool_decide (0 < length (Object_keys cloudPayload))
                then
                  let p := set_localStore
                             (writeLocalStoragePayload cloudPayload
                                (localStore p)) p in
                  if negb (reloadedAfterPullRef q)
                  then
                    (BootReload,
                     {| tab := scheduleReload now
                                 (setMessage MsgMergedReloading p);
                        reloadedAfterPullRef := true |},
                     c)
                  else upload userId Merged p c
                else upload userId NoRemoteData p c
            | None => upload userId NoRemoteData p c
            end
      end
  | _, _, _ => (BootNotRun, q, c)
  end.

(** One page life: the page loads, the session is restored and the bootstrap
    effect runs to its end at instant [t], with a network that works. *)
Definition pageLife (JSON_stringify : gmap string string → string)
    (cl : Client) (userId : string) (qc : Component * Cloud) (t : N)
  : Component * Cloud :=
  let '(_, q, c) :=
    bootstrap JSON_stringify false (Some userId) (Some cl) t t None None false
      (remount qc.1) qc.2 in
  (q, c).

End OneShot.

(** ** CloudSyncPanel, lean revision: the mark lives in localStorage *)

Module Lean.

(** The localStorage of the browser as this revision allows for it: it holds
    items, or refuses every call. *)
Inductive WebStorage : Type :=
| StorageBlocked
| StorageItems (items : gmap string string).

Definition shallowEqualPayload (a b : gmap string string) : bool :=
  if negb (Nat.eqb (length (Object_keys a)) (length (Object_keys b))) then false
  else forallb (λ k, bool_decide (a !! k = b !! k)) (Object_keys a).

Definition AUTO_RELOAD_MIN_INTERVAL_MS : Z := 60 * 60 * 1000.
Definition AUTO_RELOAD_KEY : string := "cloudSyncLastAutoReloadAt".

Inductive Notice : Type :=
| NoticeNone
| NoticeReloading        (* synced to the other device, reloading *)
| NoticeRefreshByHand.   (* synced to the other device, refresh once *)

Record Panel := {
  storage : WebStorage;
  autoReloadDisabled : bool;
  lastAutoReloadAtRef : N;
  notice : Notice;
  toasts : list Notice;
  reloads : list N;
  errors : list JsError
}.

Definition log_error (e : JsError) (p : Panel) : Panel :=
  {| storage := storage p; autoReloadDisabled := autoReloadDisabled p;
     lastAutoReloadAtRef := lastAutoReloadAtRef p; notice := notice p;
     toasts := toasts p; reloads := reloads p; errors := e :: errors p |}.

Definition set_storage (w : WebStorage) (p : Panel) : Panel :=
  {| storage := w; autoReloadDisabled := autoReloadDisabled p;
     lastAutoReloadAtRef := lastAutoReloadAtRef p; notice := notice p;
     toasts := toasts p; reloads := reloads p; errors := errors p |}.

(** [setMessage] followed by [onToast]. *)
Definition announce (n : Notice) (p : Panel) : Panel :=
  {| storage := storage p; autoReloadDisabled := autoReloadDisabled p;
     lastAutoReloadAtRef := lastAutoReloadAtRef p; notice := n;
     toasts := n :: toasts p; reloads := reloads p; errors := errors p |}.

Definition armReload (now : N) (p : Panel) : Panel :=
  {| storage := storage p; autoReloadDisabled := autoReloadDisabled p;
     lastAutoReloadAtRef := lastAutoReloadAtRef p; notice := notice p;
     toasts := toasts p; reloads := now :: reloads p; errors := errors p |}.

(** The page is loaded again: state and ref start afresh, storage persists. *)
Definition pageLoad (p : Panel) : Panel :=
  {| storage := storage p; autoReloadDisabled := false;
     lastAutoReloadAtRef := 0; notice := NoticeNone; toasts := toasts p;
     reloads := reloads p; errors := errors p |}.

(** In the three functions below [seen] is the value of the state
    [autoReloadDisabled] in the render whose closure is running. *)
Definition getLastAutoReloadAt (seen : bool) (now : N) (p : Panel) : JsNumber :=
  if seen then Num (Z.of_N now)
  else
    match storage p with
    | StorageItems items =>
        match items !! AUTO_RELOAD_KEY with
        | Some v =>
            if String.eqb v "" then Num 0
            else match Number v with
                 | Num z => Num z
                 | NaN => Num 0
                 end
        | None => Num 0
        end
    | StorageBlocked => Num (Z.of_N (lastAutoReloadAtRef p))
    end.

Definition markAutoReloadNow (now : N) (p : Panel) : Panel :=
  match storage p with
  | StorageItems items =>
      {| storage := StorageItems (<[AUTO_RELOAD_KEY := String_of_N now]> items);
         autoReloadDisabled := autoReloadDisabled p;
         lastAutoReloadAtRef := now; notice := notice p; toasts := toasts p;
         reloads := reloads p; errors := errors p |}
  | StorageBlocked =>
      {| storage := StorageBlocked; autoReloadDisabled := true;
         lastAutoReloadAtRef := now; notice := notice p; toasts := toasts p;
         reloads := reloads p; errors := errors p |}
  end.

Definition canAutoReloadNow (seen : bool) (now : N) (p : Panel) : bool :=
  if seen then false
  else
    match getLastAutoReloadAt seen now p with
    | Num last => (AUTO_RELOAD_MIN_INTERVAL_MS <=? Z.of_N now - last)%Z
    | NaN => false
    end.

(** [pullOnce]; with storage blocked the first [getItem] of
    [readLocalStoragePayload] throws into the [catch]. *)
Definition pullOnce (userId : option string) (sb : option Client)
    (seen : bool) (now : N) (fault : option JsError) (p : Panel) (c : Cloud)
  : option PullOutcome * Panel * Cloud :=
  match userId with
  | None => (None, p, c)
  | Some userId =>
      match pullFromCloud sb userId fault c with
      | (Throw e, c) => (Some (PullFailed e), log_error e p, c)
      | (Return None, c) => (Some NoRemoteData, p, c)
      | (Return (Some cloudPayload), c) =>
          match storage p with
          | StorageBlocked =>
              (Some (PullFailed SecurityError), log_error SecurityError p, c)
          | StorageItems items =>
              let localPayload := readLocalStoragePayload items in
              if shallowEqualPayload localPayload cloudPayload
              then (Some UpToDate, p, c)
              else
                let p := set_storage
                           (StorageItems
                              (writeLocalStoragePayload cloudPayload items)) p in
                if canAutoReloadNow seen now p
                then (Some Merged,
                      armReload now
                        (announce NoticeReloading (markAutoReloadNow now p)),
                      c)
                else (Some Merged, announce NoticeRefreshByHand p, c)
          end
      end
  end.

End Lean.

(** ** MonthlyBudget.tsx: the keys of the budget screen *)

Module MonthlyBudget.

Definition getStorageKey (month : N) : string :=
  "monthlyBudget_" +:+ String_of_N month.

(** How [copyToAllMonths] ends. [Data] is what [JSON.parse] returns. *)
Inductive CopyOutcome (Data : Type) : Type :=
| CopyNoData                 (* alert: there is no data for February *)
| CopyDeclined               (* the confirmation was dismissed *)
| CopyDone (data : Data)     (* [setData] with the parsed text, closing alert *)
| CopyThrew (e : JsError).   (* [JSON.parse] threw after the loop: no alert *)
Arguments CopyNoData {Data}.
Arguments CopyDeclined {Data}.
Arguments CopyDone {Data} data.
Arguments CopyThrew {Data} e.

(** [copyToAllMonths]: [confirmed] is the answer to the confirmation dialog
    and [JSON_parse] stands for [JSON.parse], which returns a value or throws.
    The loop over the months runs before the text is parsed, so localStorage
    is overwritten also when the function then throws. *)
Definition copyToAllMonths {Data : Type}
    (JSON_parse : string → Completion Data) (confirmed : bool)
    (ls : gmap string string) : CopyOutcome Data * gmap string string :=
  match localStorage.getItem "monthlyBudget_2" ls with
  | None => (CopyNoData, ls)
  | Some currentData =>
      if String.eqb currentData "" then (CopyNoData, ls)
      else if negb confirmed then (CopyDeclined, ls)
      else
        let ls :=
          foldl (λ ls month,
                   localStorage.setItem
                     ("monthlyBudget_" +:+ String_of_N month) currentData ls)
                ls (map N.of_nat (seq 1 12)) in
        match JSON_parse currentData with
        | Return data => (CopyDone data, ls)
        | Throw e => (CopyThrew e, ls)
        end
  end.

End MonthlyBudget.

(** A parser for the examples: it accepts the text of the empty object and
    throws on the two other texts the examples use, neither of which is JSON. *)
Definition SyntaxError : JsError := {| error_message := "SyntaxError" |}.

Definition sample_parse (text : string) : Completion unit :=
  if String.eqb text "{}" then Return tt else Throw SyntaxError.

(** The list of synced keys, spelled out. *)
Example SYNC_KEYS_value :
  SYNC_KEYS =
  ["stockPortfolio"; "stockWatchlist"; "bankAccounts"; "assetTrend";
   "monthlyBudget_1"; "monthlyBudget_2"; "monthlyBudget_3"; "monthlyBudget_4";
   "monthlyBudget_5"; "monthlyBudget_6"; "monthlyBudget_7"; "monthlyBudget_8";
   "monthlyBudget_9"; "monthlyBudget_10"; "monthlyBudget_11"; "monthlyBudget_12"].
Proof. reflexivity. Qed.

(** * Properties *)

(** ** Strings and numbers *)

Lemma N_to_uint_nonnil (n : N) : N.to_uint n ≠ Decimal.Nil.
Proof.
  destruct n as [|p]; [discriminate|].
  apply DecimalPos.Unsigned.to_uint_nonnil.
Qed.

(** What [markAutoReloadNow] stores is read back as the same instant. *)
Lemma Number_String_of_N (n : N) : Number (String_of_N n) = Num (Z.of_N n).
Proof.
  unfold Number, String_of_N.
  pose proof (NilZero.usu (N.to_uint n) (N_to_uint_nonnil n)) as Hparse.
  destruct (NilZero.string_of_uint (N.to_uint n)) eqn:Hs.
  - discriminate Hparse.
  - rewrite Hparse. by rewrite DecimalN.Unsigned.of_to.
Qed.

(** ** Payload objects *)

Lemma Object_keys_elem (o : gmap string string) (k : string) :
  k ∈ Object_keys o ↔ is_Some (o !! k).
Proof.
  unfold Object_keys. rewrite list_elem_of_fmap. split.
  - intros [[k' v] [-> Hin]]. apply elem_of_map_to_list in Hin. by exists v.
  - intros [v Hv]. exists (k, v). split; [done|]. by apply elem_of_map_to_list.
Qed.

Lemma Object_keys_length_0 (o : gmap string string) :
  length (Object_keys o) = 0 ↔ o = ∅.
Proof.
  unfold Object_keys. rewrite length_fmap, length_map_to_list.
  apply map_size_empty_iff.
Qed.

(** ** readLocalStoragePayload *)

Lemma read_loop_lookup (ls acc : gmap string string) (keys : list string)
    (k : string) :
  foldl (λ payload key,
           match localStorage.getItem key ls with
           | Some v => <[key := v]> payload
           | None => payload
           end) acc keys !! k
  = if decide (k ∈ keys)
    then match ls !! k with Some v => Some v | None => acc !! k end
    else acc !! k.
Proof.
  revert acc. induction keys as [|key keys IH]; intros acc; cbn [foldl].
  - by rewrite decide_False by apply not_elem_of_nil.
  - rewrite IH. unfold localStorage.getItem.
    destruct (decide (k = key)) as [->|Hne].
    + destruct (decide (key ∈ key :: keys)) as [_|Hnin];
        [|by destruct Hnin; left].
      destruct (ls !! key) as [v|] eqn:Hv.
      * rewrite lookup_insert_eq. by destruct (decide (key ∈ keys)).
      * by destruct (decide (key ∈ keys)).
    + assert (Hacc : match ls !! key with
                     | Some v => <[key := v]> acc
                     | None => acc
                     end !! k = acc !! k).
      { destruct (ls !! key); [by rewrite lookup_insert_ne | done]. }
      rewrite Hacc.
      destruct (decide (k ∈ keys)) as [Hin|Hnin],
               (decide (k ∈ key :: keys)) as [Hin'|Hnin']; try done.
      * destruct Hnin'. by right.
      * apply elem_of_cons in Hin' as [?|?]; done.
Qed.

(** The snapshot holds exactly the synced keys that localStorage binds. *)
Lemma readLocalStoragePayload_lookup (ls : gmap string string) (k : string) :
  readLocalStoragePayload ls !! k
  = if decide (k ∈ SYNC_KEYS) then ls !! k else None.
Proof.
  unfold readLocalStoragePayload. rewrite read_loop_lookup, lookup_empty.
  destruct (decide (k ∈ SYNC_KEYS)); [by destruct (ls !! k) | done].
Qed.

Lemma readLocalStoragePayload_subseteq (ls : gmap string string) :
  readLocalStoragePayload ls ⊆ ls.
Proof.
  apply map_subseteq_spec. intros k v.
  rewrite readLocalStoragePayload_lookup. by case_decide.
Qed.

Lemma readLocalStoragePayload_keys (ls : gmap string string) (k : string) :
  k ∈ Object_keys (readLocalStoragePayload ls) → k ∈ SYNC_KEYS.
Proof.
  rewrite Object_keys_elem, readLocalStoragePayload_lookup.
  case_decide; [done | by intros [? ?]].
Qed.

(** ** writeLocalStoragePayload *)

Lemma write_loop_lookup (l : list (string * string)) (ls : gmap string string)
    (k : string) :
  NoDup l.*1 →
  foldl (λ ls kv, localStorage.setItem kv.1 kv.2 ls) ls l !! k
  = match (list_to_map l : gmap string string) !! k with
    | Some v => Some v
    | None => ls !! k
    end.
Proof.
  revert ls. induction l as [|[k0 v0] l IH]; intros ls Hnd; simpl.
  - by rewrite lookup_empty.
  - apply NoDup_cons in Hnd as [Hk0 Hnd].
    rewrite IH by done. unfold localStorage.setItem; simpl.
    destruct (decide (k = k0)) as [->|Hne].
    + rewrite !lookup_insert_eq.
      by rewrite (not_elem_of_list_to_map_1 l k0 Hk0).
    + by rewrite !lookup_insert_ne.
Qed.

(** After the write, a key of the payload holds the payload's value and any
    other key holds what it held before. *)
Lemma writeLocalStoragePayload_lookup (payload ls : gmap string string)
    (k : string) :
  writeLocalStoragePayload payload ls !! k
  = match payload !! k with Some v => Some v | None => ls !! k end.
Proof.
  unfold writeLocalStoragePayload.
  rewrite write_loop_lookup by apply NoDup_fst_map_to_list.
  by rewrite list_to_map_to_list.
Qed.

Lemma writeLocalStoragePayload_union (payload ls : gmap string string) :
  writeLocalStoragePayload payload ls = payload ∪ ls.
Proof.
  apply map_eq. intros k.
  rewrite writeLocalStoragePayload_lookup, lookup_union.
  destruct (payload !! k), (ls !! k); done.
Qed.

(** ** isSame *)

Lemma isSame_spec (cloudPayload localPayload : gmap string string) :
  isSame cloudPayload localPayload = true ↔ cloudPayload ⊆ localPayload.
Proof.
  unfold isSame. rewrite forallb_forall, map_subseteq_spec. split.
  - intros Hall k v Hk.
    assert (Hin : k ∈ Object_keys cloudPayload).
    { apply Object_keys_elem. by exists v. }
    apply list_elem_of_In, Hall, bool_decide_eq_true in Hin. congruence.
  - intros Hsub k Hin. apply list_elem_of_In, Object_keys_elem in Hin as [v Hv].
    apply bool_decide_eq_true. rewrite Hv. by apply Hsub.
Qed.

(** Writing a payload that already agrees with localStorage changes nothing. *)
Lemma writeLocalStoragePayload_same (payload ls : gmap string string) :
  payload ⊆ ls → writeLocalStoragePayload payload ls = ls.
Proof.
  intros Hsub. rewrite writeLocalStoragePayload_union.
  by apply map_subseteq_union.
Qed.

(** ** Effect of the callbacks on localStorage *)

(** Walks through the three early returns of the push timer, which leave
    everything but [pushingRef] alone, down to the request. *)
Ltac push_tick_guards p typing :=
  unfold pushTick, pushTick_begin;
  destruct (pushingRef p); [done|];
  destruct (String.eqb _ _); [done|];
  destruct typing; [done|].

Lemma reloadOrNotify_localStore (now : N) (p : Panel) :
  localStore (reloadOrNotify now p) = localStore p.
Proof. unfold reloadOrNotify. by destruct (canAutoReloadNow _ _). Qed.

Lemma isSame_read_union (cloudPayload ls : gmap string string) :
  isSame cloudPayload (readLocalStoragePayload ls) = true →
  cloudPayload ∪ ls = ls.
Proof.
  intros Hsame%isSame_spec. apply map_subseteq_union.
  etrans; [exact Hsame | apply readLocalStoragePayload_subseteq].
Qed.

(** Whatever the periodic pull does, localStorage ends up as the delivered
    payload laid over the previous contents. *)
Lemma pullTick_localStore (sb : option Client) (userId : string) (now : N)
    (fault : option JsError) (p : Panel) (c : Cloud) :
  localStore (pullTick sb userId now fault p c).1.2
  = delivered (pullFromCloud sb userId fault c).1 ∪ localStore p.
Proof.
  unfold pullTick.
  destruct (pullFromCloud sb userId fault c) as [[[cloudPayload|]|e] c']; simpl.
  - case_bool_decide as Hkeys; simpl.
    + apply Object_keys_length_0 in Hkeys as ->. by rewrite (left_id_L ∅ (∪)).
    + destruct (isSame _ _) eqn:Hsame; simpl.
      * by rewrite isSame_read_union.
      * by rewrite reloadOrNotify_localStore, <- writeLocalStoragePayload_union.
  - by rewrite (left_id_L ∅ (∪)).
  - by rewrite (left_id_L ∅ (∪)).
Qed.

Section EngineFacts.

Variable JSON_stringify : gmap string string → string.

Lemma bootstrapPush_localStore sb userId pushNow pushFault pulled p c :
  localStore
    (bootstrapPush JSON_stringify sb userId pushNow pushFault pulled p c).1.2
  = localStore p.
Proof.
  unfold bootstrapPush. by destruct (pushToCloud _ _ _ _ _ _) as [[[]|e] c'].
Qed.

(** The bootstrap effect, when it gets past its guards and is not cancelled,
    treats localStorage as the periodic pull does. *)
Lemma bootstrap_localStore (userId : string) (cl : Client) (now pushNow : N)
    (pullFault pushFault : option JsError) (p : Panel) (c : Cloud) :
  localStore
    (bootstrap JSON_stringify false (Some userId) (Some cl) now pushNow
       pullFault pushFault false p c).1.2
  = delivered (pullFromCloud (Some cl) userId pullFault c).1 ∪ localStore p.
Proof.
  unfold bootstrap.
  destruct (pullFromCloud (Some cl) userId pullFault c)
    as [[[cloudPayload|]|e] c']; simpl.
  - case_bool_decide as Hkeys; simpl.
    + destruct (isSame _ _) eqn:Hsame; simpl.
      * rewrite bootstrapPush_localStore; simpl. by rewrite isSame_read_union.
      * destruct (canAutoReloadNow _ _); simpl.
        -- by rewrite writeLocalStoragePayload_union.
        -- rewrite bootstrapPush_localStore; simpl.
           by rewrite writeLocalStoragePayload_union.
    + rewrite bootstrapPush_localStore; simpl.
      assert (cloudPayload = ∅) as ->.
      { apply Object_keys_length_0. lia. }
      by rewrite (left_id_L ∅ (∪)).
  - rewrite bootstrapPush_localStore; simpl. by rewrite (left_id_L ∅ (∪)).
  - by rewrite (left_id_L ∅ (∪)).
Qed.

Lemma pushTick_localStore sb userId typing now fault p c :
  localStore (pushTick JSON_stringify sb userId typing now fault p c).1.2
  = localStore p.
Proof.
  push_tick_guards p typing.
  destruct (pushToCloud _ _ _ _ _ _) as [[[]|e] c']; done.
Qed.

End EngineFacts.

(** C2: for every pulled remote payload and every state of localStorage, once
    the pull (periodic, or the one of the bootstrap effect) is over, each key
    of the remote payload holds the remote value and every other key holds the
    value it held before: nothing is deleted and nothing else is modified. *)
Theorem C2_pull_overwrites_remote_keys_only
    (JSON_stringify : gmap string string → string)
    (cl : Client) (userId : string) (now pushNow : N)
    (pushFault : option JsError) (p : Panel) (c c' : Cloud)
    (remote : gmap string string) (k : string) :
  pullFromCloud (Some cl) userId None c = (Return (Some remote), c') →
  localStore (pullTick (Some cl) userId now None p c).1.2 !! k
  = match remote !! k with Some v => Some v | None => localStore p !! k end
  ∧ localStore
      (bootstrap JSON_stringify false (Some userId) (Some cl) now pushNow
         None pushFault false p c).1.2 !! k
    = match remote !! k with Some v => Some v | None => localStore p !! k end.
Proof.
  intros Hpull.
  rewrite pullTick_localStore, bootstrap_localStore, Hpull; simpl.
  rewrite lookup_union. by destruct (remote !! k), (localStore p !! k).
Qed.

(** Remote supplies [assetTrend]; the local [bankAccounts] is looked up. *)
Lemma C2_witness :
  pullFromCloud (Some sample_client) sample_user None
    (cloud_with {[ "assetTrend" := "a1" ]} 7)
  = (Return (Some {[ "assetTrend" := "a1" ]}),
     sent (Select sample_user) (cloud_with {[ "assetTrend" := "a1" ]} 7))
  ∧ localStore (pullTick (Some sample_client) sample_user 10 None
                  (mount store_bank_old session_empty)
                  (cloud_with {[ "assetTrend" := "a1" ]} 7)).1.2
      !! "bankAccounts"
    = match ({[ "assetTrend" := "a1" ]} : gmap string string) !! "bankAccounts"
      with
      | Some v => Some v
      | None => localStore (mount store_bank_old session_empty) !! "bankAccounts"
      end
  ∧ localStore
      (bootstrap sample_stringify false (Some sample_user)
         (Some sample_client) 10 11 None None false
         (mount store_bank_old session_empty)
         (cloud_with {[ "assetTrend" := "a1" ]} 7)).1.2
      !! "bankAccounts"
    = match ({[ "assetTrend" := "a1" ]} : gmap string string) !! "bankAccounts"
      with
      | Some v => Some v
      | None => localStore (mount store_bank_old session_empty) !! "bankAccounts"
      end.
Proof.
  split; [reflexivity|].
  apply (C2_pull_overwrites_remote_keys_only sample_stringify sample_client
           sample_user 10 11 None (mount store_bank_old session_empty)
           (cloud_with {[ "assetTrend" := "a1" ]} 7)
           (sent (Select sample_user) (cloud_with {[ "assetTrend" := "a1" ]} 7))
           {[ "assetTrend" := "a1" ]} "bankAccounts").
  reflexivity.
Defined.

Example C2_local_only_key_kept :
  localStore (pullTick (Some sample_client) sample_user 10 None
                (mount store_bank_old session_empty)
                (cloud_with {[ "assetTrend" := "a1" ]} 7)).1.2
  = {[ "assetTrend" := "a1"; "bankAccounts" := "old" ]}.
Proof. by vm_compute. Qed.

(** ** Synced keys along an execution *)

Lemma readLocalStoragePayload_synced (ls : gmap string string) :
  payloadSynced (readLocalStoragePayload ls).
Proof.
  intros k Hk. apply (readLocalStoragePayload_keys ls).
  by apply Object_keys_elem.
Qed.

Lemma payloadSynced_empty : payloadSynced ∅.
Proof. intros k [v Hv]. by rewrite lookup_empty in Hv. Qed.

Lemma sent_Select_synced (userId : string) (c : Cloud) :
  cloudSynced c → cloudSynced (sent (Select userId) c).
Proof.
  intros [Hrows Hreqs]. split; [exact Hrows|].
  intros u row [Heq|Hin]%elem_of_cons; [discriminate | by eapply Hreqs].
Qed.

Lemma pullFromCloud_synced sb userId fault c :
  cloudSynced c →
  cloudSynced (pullFromCloud sb userId fault c).2
  ∧ payloadSynced (delivered (pullFromCloud sb userId fault c).1).
Proof.
  intros Hc. unfold pullFromCloud.
  destruct sb as [cl|]; [|split; [done | apply payloadSynced_empty]].
  destruct fault as [e|]; simpl.
  { split; [by apply sent_Select_synced | apply payloadSynced_empty]. }
  destruct (user_state c !! userId) as [row|] eqn:Hrow; simpl.
  - split; [by apply sent_Select_synced | by apply (proj1 Hc userId)].
  - split; [by apply sent_Select_synced | apply payloadSynced_empty].
Qed.

Lemma pushToCloud_synced sb userId payload now fault c :
  cloudSynced c → payloadSynced payload →
  cloudSynced (pushToCloud sb userId payload now fault c).2.
Proof.
  intros [Hrows Hreqs] Hp. unfold pushToCloud.
  destruct sb as [cl|]; [|done].
  destruct fault as [e|]; simpl; split; simpl.
  - exact Hrows.
  - intros u row [[= -> ->]|Hin]%elem_of_cons; [done | by eapply Hreqs].
  - intros u row. rewrite lookup_insert. case_decide.
    + by intros [= <-].
    + apply Hrows.
  - intros u row [[= -> ->]|Hin]%elem_of_cons; [done | by eapply Hreqs].
Qed.

Lemma pullTick_cloud sb userId now fault p c :
  (pullTick sb userId now fault p c).2 = (pullFromCloud sb userId fault c).2.
Proof.
  unfold pullTick.
  destruct (pullFromCloud sb userId fault c) as [[[cloudPayload|]|e] c']; simpl;
    try done.
  case_bool_decide; [done|]. by destruct (isSame _ _).
Qed.

(** Outside the synced keys a synced payload changes nothing. *)
Lemma synced_union_frame (payload ls : gmap string string) (k : string) :
  payloadSynced payload → k ∉ SYNC_KEYS → (payload ∪ ls) !! k = ls !! k.
Proof.
  intros Hp Hk. apply lookup_union_r.
  destruct (payload !! k) as [v|] eqn:Hv; [|done].
  destruct Hk. apply Hp. by exists v.
Qed.

Section Confinement.

Variable JSON_stringify : gmap string string → string.
Variable sb : option Client.

Lemma pushTick_synced userId typing now fault p c :
  cloudSynced c →
  cloudSynced (pushTick JSON_stringify sb userId typing now fault p c).2.
Proof.
  intros Hc. push_tick_guards p typing.
  pose proof (pushToCloud_synced sb userId
                (readLocalStoragePayload (localStore p)) now fault c Hc
                (readLocalStoragePayload_synced _)) as Hpush.
  simpl. by destruct (pushToCloud _ _ _ _ _ _) as [[[]|e] c'].
Qed.

Lemma bootstrapPush_synced userId pushNow pushFault pulled p c :
  cloudSynced c →
  cloudSynced
    (bootstrapPush JSON_stringify sb userId pushNow pushFault pulled p c).2.
Proof.
  intros Hc. unfold bootstrapPush.
  pose proof (pushToCloud_synced sb userId
                (readLocalStoragePayload (localStore p)) pushNow pushFault c Hc
                (readLocalStoragePayload_synced _)) as Hpush.
  by destruct (pushToCloud _ _ _ _ _ _) as [[[]|e] c'].
Qed.

Lemma bootstrap_synced loading user now pushNow pullFault pushFault cancelled
    p c :
  cloudSynced c →
  cloudSynced
    (bootstrap JSON_stringify loading user sb now pushNow pullFault pushFault
       cancelled p c).2.
Proof.
  intros Hc. unfold bootstrap.
  destruct loading; [done|]. destruct user as [userId|]; [|done].
  destruct sb as [cl|] eqn:Hsb; [|done]. rewrite <- Hsb.
  pose proof (pullFromCloud_synced sb userId pullFault c Hc) as [Hc' _].
  destruct (pullFromCloud sb userId pullFault c) as [[cloudPayload|e] c'];
    simpl in *; [|done].
  destruct cancelled; [done|].
  destruct cloudPayload as [cloudPayload|]; [|by apply bootstrapPush_synced].
  case_bool_decide; [|by apply bootstrapPush_synced].
  destruct (negb _ && _); [done | by apply bootstrapPush_synced].
Qed.

Lemma bootstrap_frame loading user now pushNow pullFault pushFault cancelled
    p c k :
  cloudSynced c → k ∉ SYNC_KEYS →
  localStore
    (bootstrap JSON_stringify loading user sb now pushNow pullFault pushFault
       cancelled p c).1.2 !! k
  = localStore p !! k.
Proof.
  intros Hc Hk.
  destruct loading; [done|]. destruct user as [userId|]; [|done].
  destruct sb as [cl|] eqn:Hsb; [|done].
  destruct cancelled.
  - unfold bootstrap.
    by destruct (pullFromCloud (Some cl) userId pullFault c) as [[?|e] c'].
  - rewrite bootstrap_localStore. apply synced_union_frame; [|done].
    by apply pullFromCloud_synced.
Qed.

Lemma step_synced (e : Event) (p : Panel) (c : Cloud) :
  cloudSynced c → cloudSynced (step JSON_stringify sb (p, c) e).2.
Proof.
  intros Hc. destruct e; simpl.
  - pose proof (bootstrap_synced loading user now pushNow pullFault pushFault
                  cancelled p c Hc) as H.
    by destruct (bootstrap _ _ _ _ _ _ _ _ _ _ _) as [[o p'] c'].
  - pose proof (pullTick_cloud sb userId now fault p c) as Heq.
    pose proof (pullFromCloud_synced sb userId fault c Hc) as [H _].
    destruct (pullTick _ _ _ _ _ _) as [[o p'] c']. simpl in *. by subst.
  - pose proof (pushTick_synced userId typing now fault p c Hc) as H.
    by destruct (pushTick _ _ _ _ _ _ _ _) as [[o p'] c'].
  - done.
  - done.
  - apply pushToCloud_synced; [done | apply readLocalStoragePayload_synced].
Qed.

Lemma step_frame (e : Event) (p : Panel) (c : Cloud) (k : string) :
  cloudSynced c → k ∉ SYNC_KEYS → (∀ v, e ≠ EvEdit k v) →
  localStore (step JSON_stringify sb (p, c) e).1 !! k = localStore p !! k.
Proof.
  intros Hc Hk Hedit. destruct e; simpl.
  - pose proof (bootstrap_frame loading user now pushNow pullFault pushFault
                  cancelled p c k Hc Hk) as H.
    by destruct (bootstrap _ _ _ _ _ _ _ _ _ _ _) as [[o p'] c'].
  - pose proof (pullTick_localStore sb userId now fault p c) as H.
    pose proof (pullFromCloud_synced sb userId fault c Hc) as [_ Hp].
    destruct (pullTick _ _ _ _ _ _) as [[o p'] c']. simpl in *. rewrite H.
    by apply synced_union_frame.
  - pose proof (pushTick_localStore JSON_stringify sb userId typing now fault
                  p c) as H.
    destruct (pushTick _ _ _ _ _ _ _ _) as [[o p'] c']. simpl in *.
    by rewrite H.
  - done.
  - unfold localStorage.setItem. apply lookup_insert_ne.
    intros ->. by apply (Hedit value).
  - done.
Qed.

Lemma run_confined (es : list Event) (p : Panel) (c : Cloud) (k : string) :
  cloudSynced c → k ∉ SYNC_KEYS → (∀ v, EvEdit k v ∉ es) →
  cloudSynced (run JSON_stringify sb es (p, c)).2
  ∧ localStore (run JSON_stringify sb es (p, c)).1 !! k = localStore p !! k.
Proof.
  revert p c. induction es as [|e es IH]; intros p c Hc Hk Hedit; [done|].
  unfold run in *. cbn [foldl].
  pose proof (step_synced e p c Hc) as Hc'.
  pose proof (step_frame e p c k Hc Hk) as Hf.
  destruct (step JSON_stringify sb (p, c) e) as [p' c']. simpl in *.
  destruct (IH p' c' Hc' Hk) as [IHc IHf].
  { intros v Hin. apply (Hedit v). by right. }
  split; [exact IHc|]. rewrite IHf. apply Hf.
  intros v ->. apply (Hedit v). by left.
Qed.

End Confinement.

Lemma theme_not_synced : "theme" ∉ SYNC_KEYS.
Proof. apply (bool_decide_unpack _). by vm_compute. Qed.

Lemma no_cloud_synced : cloudSynced no_cloud.
Proof.
  split; intros userId row H; simpl in H.
  - by rewrite lookup_empty in H.
  - by apply elem_of_nil in H.
Qed.

(** C3 (as amended): every payload handed to a push binds synced keys only.
    A pulled payload is written key by key without a filter: it leaves the
    keys outside the synced set alone in every localStorage exactly when it
    binds synced keys only, since a key it binds is set to its value. Along
    every execution that starts from a remote table whose rows bind synced
    keys only the payloads are of that kind: the table and the upserts keep
    that form, and a key outside the synced set that no screen of the app
    saves keeps its value through every bootstrap, pull and push. *)
Theorem C3_sync_confined_to_synced_keys
    (JSON_stringify : gmap string string → string) (sb : option Client)
    (es : list Event) (p : Panel) (c : Cloud) (k : string) :
  cloudSynced c → k ∉ SYNC_KEYS → (∀ v, EvEdit k v ∉ es) →
  payloadSynced (readLocalStoragePayload (localStore p))
  ∧ (∀ payload,
       payloadSynced payload
       ↔ ∀ ls k', k' ∉ SYNC_KEYS →
           writeLocalStoragePayload payload ls !! k' = ls !! k')
  ∧ cloudSynced (run JSON_stringify sb es (p, c)).2
  ∧ localStore (run JSON_stringify sb es (p, c)).1 !! k = localStore p !! k.
Proof.
  intros Hc Hk Hedit. split; [apply readLocalStoragePayload_synced|]. split.
  - intros payload. split.
    + intros Hp ls k' Hk'. rewrite writeLocalStoragePayload_union.
      by apply synced_union_frame.
    + intros Hframe k' [v Hv].
      destruct (decide (k' ∈ SYNC_KEYS)) as [|Hk']; [done|].
      specialize (Hframe ∅ k' Hk').
      rewrite writeLocalStoragePayload_lookup, Hv, lookup_empty in Hframe.
      discriminate Hframe.
  - by apply run_confined.
Qed.

Lemma C3_witness :
  cloudSynced no_cloud ∧ ("theme" ∉ SYNC_KEYS)
  ∧ (∀ v, EvEdit "theme" v ∉ sample_session)
  ∧ localStore
      (run sample_stringify (Some sample_client) sample_session
         (mount store_with_theme session_empty, no_cloud)).1 !! "theme"
    = localStore (mount store_with_theme session_empty) !! "theme".
Proof.
  assert (Hedit : ∀ v, EvEdit "theme" v ∉ sample_session).
  { intros v Hin. unfold sample_session in Hin.
    repeat (apply elem_of_cons in Hin as [Heq|Hin]; [discriminate Heq|]).
    by apply elem_of_nil in Hin. }
  split; [apply no_cloud_synced|]. split; [apply theme_not_synced|].
  split; [exact Hedit|].
  apply (C3_sync_confined_to_synced_keys sample_stringify (Some sample_client)
           sample_session (mount store_with_theme session_empty) no_cloud
           "theme" no_cloud_synced theme_not_synced Hedit).
Defined.

(** C3 as stated fails: a remote payload that binds a key outside the synced
    set is written to localStorage like any other. *)
Lemma C3_counterexample :
  ("theme" ∉ SYNC_KEYS)
  ∧ localStore (mount store_bank_old session_empty) !! "theme" = None
  ∧ localStore
      (pullTick (Some sample_client) sample_user 10 None
         (mount store_bank_old session_empty)
         (cloud_with {[ "theme" := "dark" ]} 7)).1.2 !! "theme"
    = Some "dark".
Proof.
  split; [apply theme_not_synced|]. split; by vm_compute.
Qed.

(** ** Push, then pull *)

Lemma isSame_refl (payload : gmap string string) : isSame payload payload = true.
Proof. by apply isSame_spec. Qed.

Lemma upserts_Upsert (userId : string) (row : Row) (ust : gmap string Row)
    (c : Cloud) :
  upserts {| user_state := ust; requests := Upsert userId row :: requests c |}
  = S (upserts c).
Proof. unfold upserts; cbn [requests]. by rewrite filter_cons_True. Qed.

Lemma upserts_Select (userId : string) (c : Cloud) :
  upserts (sent (Select userId) c) = upserts c.
Proof.
  unfold upserts, sent; cbn [requests]. by rewrite filter_cons_False.
Qed.

(** Once [payload] is the row of [userId], a pull on a tab whose snapshot is
    [payload] stops at the first guard when the payload has no key and at the
    comparison otherwise; the tab is returned as it was. *)
Lemma pullTick_of_own_snapshot (cl : Client) (userId : string) (now t : N)
    (p : Panel) (ust : gmap string Row) (reqs : list Request) :
  let payload := readLocalStoragePayload (localStore p) in
  let c := {| user_state := <[userId := {| row_payload := payload;
                                           updated_at := t |}]> ust;
              requests := reqs |} in
  pullTick (Some cl) userId now None p c
  = (if decide (payload = ∅) then NoRemoteData else UpToDate, p,
     sent (Select userId) c).
Proof.
  intros payload c. unfold pullTick, pullFromCloud. simpl.
  rewrite lookup_insert_eq. simpl. fold payload.
  destruct (decide (payload = ∅)) as [Hempty|Hne].
  - rewrite bool_decide_eq_true_2; [done | by apply Object_keys_length_0].
  - rewrite bool_decide_eq_false_2; [| by rewrite Object_keys_length_0].
    by rewrite isSame_refl.
Qed.

(** Inversion of a push timer that reports [Pushed]. *)
Lemma pushTick_Pushed_inv JSON_stringify cl userId typing now fault p c p1 c1 :
  pushTick JSON_stringify (Some cl) userId typing now fault p c
  = (Pushed, p1, c1) →
  let payload := readLocalStoragePayload (localStore p) in
  pushingRef p = false ∧ typing = false ∧ fault = None
  ∧ JSON_stringify payload ≠ lastPushedRef p
  ∧ p1 = pushFinally (setStatus ready (setLastSyncText now
           (set_lastPushedRef (JSON_stringify payload) (set_pushingRef true p))))
  ∧ c1 = {| user_state := <[userId := {| row_payload := payload;
                                         updated_at := now |}]> (user_state c);
            requests := Upsert userId {| row_payload := payload;
                                         updated_at := now |} :: requests c |}.
Proof.
  intros H payload. unfold pushTick, pushTick_begin in H. fold payload in H.
  destruct (pushingRef p) eqn:Hflag; [discriminate|].
  destruct (String.eqb _ _) eqn:Hjson; [discriminate|].
  destruct typing; [discriminate|].
  destruct fault as [e|]; simpl in H; [discriminate|].
  injection H as <- <-.
  apply String.eqb_neq in Hjson. done.
Qed.

(** C1 (as amended): after a successful push of the snapshot of the synced
    keys, a pull with no remote write in between is handed exactly that
    snapshot, every key of which agrees with the local value; the pull returns
    the tab as it was, so localStorage is not modified. Its outcome is UpToDate
    when the snapshot binds at least one key; when the snapshot binds none,
    the pull stops at the guard for an empty payload, which is the outcome of
    a missing row. *)
Theorem C1_pull_after_push_changes_nothing
    (JSON_stringify : gmap string string → string)
    (cl : Client) (userId : string) (typing : bool) (pushNow pullNow : N)
    (fault : option JsError) (p p1 : Panel) (c c1 : Cloud) :
  pushTick JSON_stringify (Some cl) userId typing pushNow fault p c
  = (Pushed, p1, c1) →
  let snapshot := readLocalStoragePayload (localStore p) in
  pullFromCloud (Some cl) userId None c1
  = (Return (Some snapshot), sent (Select userId) c1)
  ∧ isSame snapshot (readLocalStoragePayload (localStore p1)) = true
  ∧ localStore p1 = localStore p
  ∧ pullTick (Some cl) userId pullNow None p1 c1
    = (if decide (snapshot = ∅) then NoRemoteData else UpToDate, p1,
       sent (Select userId) c1).
Proof.
  intros H snapshot.
  apply pushTick_Pushed_inv in H as (_ & _ & _ & _ & -> & ->). simpl.
  fold snapshot. repeat split.
  - unfold pullFromCloud; simpl. by rewrite lookup_insert_eq.
  - apply isSame_refl.
  - apply (pullTick_of_own_snapshot cl userId pullNow pushNow
             (pushFinally (setStatus ready (setLastSyncText pushNow
                (set_lastPushedRef (JSON_stringify snapshot)
                   (set_pushingRef true p)))))).
Qed.

Lemma C1_witness :
  pushTick sample_stringify (Some sample_client) sample_user false 5 None
    (mount store_bank_old session_empty) no_cloud
  = (Pushed,
     (pushTick sample_stringify (Some sample_client) sample_user false 5 None
        (mount store_bank_old session_empty) no_cloud).1.2,
     (pushTick sample_stringify (Some sample_client) sample_user false 5 None
        (mount store_bank_old session_empty) no_cloud).2)
  ∧ (pullTick (Some sample_client) sample_user 6 None
       (pushTick sample_stringify (Some sample_client) sample_user false 5 None
          (mount store_bank_old session_empty) no_cloud).1.2
       (pushTick sample_stringify (Some sample_client) sample_user false 5 None
          (mount store_bank_old session_empty) no_cloud).2).1.1
    = UpToDate.
Proof.
  assert (Hpush :
    pushTick sample_stringify (Some sample_client) sample_user false 5 None
      (mount store_bank_old session_empty) no_cloud
    = (Pushed,
       (pushTick sample_stringify (Some sample_client) sample_user false 5 None
          (mount store_bank_old session_empty) no_cloud).1.2,
       (pushTick sample_stringify (Some sample_client) sample_user false 5 None
          (mount store_bank_old session_empty) no_cloud).2)) by reflexivity.
  split; [exact Hpush|].
  destruct (C1_pull_after_push_changes_nothing sample_stringify sample_client
              sample_user false 5 6 None _ _ _ _ Hpush) as (_ & _ & _ & ->).
  by vm_compute.
Defined.

(** C1 as stated fails on a tab that holds no synced key: the push uploads an
    empty payload and the pull that follows takes the branch of a missing row
    instead of comparing. *)
Lemma C1_counterexample :
  (pushTick sample_stringify (Some sample_client) sample_user false 5 None
     (mount ∅ session_empty) no_cloud).1.1 = Pushed
  ∧ (pullTick (Some sample_client) sample_user 6 None
       (pushTick sample_stringify (Some sample_client) sample_user false 5 None
          (mount ∅ session_empty) no_cloud).1.2
       (pushTick sample_stringify (Some sample_client) sample_user false 5 None
          (mount ∅ session_empty) no_cloud).2).1.1
    = NoRemoteData
  ∧ NoRemoteData ≠ UpToDate.
Proof. repeat split; by vm_compute. Qed.

(** ** The push timer *)

(** C4: when a push of the snapshot has gone through and the snapshot of the
    synced keys is still the same, the next run of the push timer computes the
    digest that [lastPushedRef] holds and returns [Unchanged] before any
    request: the tab and the remote side are left as they were, whatever the
    focus and the network would have been, and of the two runs exactly one
    upsert reached the network. *)
Theorem C4_second_push_is_unchanged
    (JSON_stringify : gmap string string → string)
    (cl : Client) (userId : string) (typing typing2 : bool) (now now2 : N)
    (fault fault2 : option JsError) (p p1 : Panel) (c c1 : Cloud)
    (ls2 : gmap string string) :
  pushTick JSON_stringify (Some cl) userId typing now fault p c
  = (Pushed, p1, c1) →
  readLocalStoragePayload ls2 = readLocalStoragePayload (localStore p) →
  JSON_stringify (readLocalStoragePayload ls2) = lastPushedRef p1
  ∧ pushTick JSON_stringify (Some cl) userId typing2 now2 fault2
      (set_localStore ls2 p1) c1
    = (Unchanged, set_localStore ls2 p1, c1)
  ∧ upserts c1 = S (upserts c).
Proof.
  intros H Hsnap.
  apply pushTick_Pushed_inv in H as (_ & _ & _ & _ & -> & ->).
  split; [by rewrite Hsnap|]. split; [|apply upserts_Upsert].
  unfold pushTick, pushTick_begin; simpl.
  by rewrite Hsnap, String.eqb_refl.
Qed.

Lemma C4_witness :
  pushTick sample_stringify (Some sample_client) sample_user false 5 None
    (mount store_bank_old session_empty) no_cloud
  = (Pushed,
     (pushTick sample_stringify (Some sample_client) sample_user false 5 None
        (mount store_bank_old session_empty) no_cloud).1.2,
     (pushTick sample_stringify (Some sample_client) sample_user false 5 None
        (mount store_bank_old session_empty) no_cloud).2)
  ∧ readLocalStoragePayload store_with_theme
    = readLocalStoragePayload
        (localStore (mount store_bank_old session_empty))
  ∧ upserts
      (pushTick sample_stringify (Some sample_client) sample_user false 25 None
         (set_localStore store_with_theme
            (pushTick sample_stringify (Some sample_client) sample_user false 5
               None (mount store_bank_old session_empty) no_cloud).1.2)
         (pushTick sample_stringify (Some sample_client) sample_user false 5
            None (mount store_bank_old session_empty) no_cloud).2).2
    = 1.
Proof.
  assert (Hpush :
    pushTick sample_stringify (Some sample_client) sample_user false 5 None
      (mount store_bank_old session_empty) no_cloud
    = (Pushed,
       (pushTick sample_stringify (Some sample_client) sample_user false 5 None
          (mount store_bank_old session_empty) no_cloud).1.2,
       (pushTick sample_stringify (Some sample_client) sample_user false 5 None
          (mount store_bank_old session_empty) no_cloud).2)) by reflexivity.
  assert (Hsnap :
    readLocalStoragePayload store_with_theme
    = readLocalStoragePayload
        (localStore (mount store_bank_old session_empty))) by (by vm_compute).
  split; [exact Hpush|]. split; [exact Hsnap|].
  destruct (C4_second_push_is_unchanged sample_stringify sample_client
              sample_user false false 5 25 None None _ _ _ _ store_with_theme
              Hpush Hsnap) as (_ & Htick & Hups).
  rewrite Htick. cbn [snd]. rewrite Hups. reflexivity.
Defined.

(** Inversion of a push timer that reports a failure. *)
Lemma pushTick_PushFailed_inv JSON_stringify cl userId typing now fault p c e
    p1 c1 :
  pushTick JSON_stringify (Some cl) userId typing now fault p c
  = (PushFailed e, p1, c1) →
  let payload := readLocalStoragePayload (localStore p) in
  pushingRef p = false ∧ typing = false ∧ fault = Some e
  ∧ JSON_stringify payload ≠ lastPushedRef p
  ∧ p1 = pushFinally (console_error e (set_pushingRef true p))
  ∧ c1 = sent (Upsert userId {| row_payload := payload; updated_at := now |}) c.
Proof.
  intros H payload. unfold pushTick, pushTick_begin in H. fold payload in H.
  destruct (pushingRef p) eqn:Hflag; [discriminate|].
  destruct (String.eqb _ _) eqn:Hjson; [discriminate|].
  destruct typing; [discriminate|].
  destruct fault as [e'|]; simpl in H; [|discriminate].
  injection H as -> <- <-.
  apply String.eqb_neq in Hjson. done.
Qed.

(** C8: when the upsert of a push attempt fails, nothing of the attempt
    remains in the tab: [lastPushedRef] holds its previous value, localStorage
    is as before, [pushingRef] is cleared, the status is not changed (so the
    timers stay installed) and the error went to the console. The next run of
    the timer, with the focus elsewhere, sends the same payload again. *)
Theorem C8_failed_push_is_retried
    (JSON_stringify : gmap string string → string)
    (cl : Client) (userId : string) (typing : bool) (now now2 : N)
    (fault : option JsError) (e : JsError) (p p1 : Panel) (c c1 : Cloud) :
  pushTick JSON_stringify (Some cl) userId typing now fault p c
  = (PushFailed e, p1, c1) →
  lastPushedRef p1 = lastPushedRef p
  ∧ localStore p1 = localStore p
  ∧ pushingRef p1 = false
  ∧ status p1 = status p
  ∧ console p1 = e :: console p
  ∧ (pushTick JSON_stringify (Some cl) userId false now2 None p1 c1).1.1 = Pushed
  ∧ requests (pushTick JSON_stringify (Some cl) userId false now2 None p1 c1).2
    = Upsert userId {| row_payload := readLocalStoragePayload (localStore p);
                       updated_at := now2 |} :: requests c1.
Proof.
  intros H.
  apply pushTick_PushFailed_inv in H as (_ & _ & _ & Hjson & -> & ->).
  repeat split; try done.
  - unfold pushTick, pushTick_begin; simpl.
    apply String.eqb_neq in Hjson. by rewrite Hjson.
  - unfold pushTick, pushTick_begin; simpl.
    apply String.eqb_neq in Hjson. by rewrite Hjson.
Qed.

Lemma C8_witness :
  pushTick sample_stringify (Some sample_client) sample_user false 5
    (Some SecurityError) (mount store_bank_old session_empty) no_cloud
  = (PushFailed SecurityError,
     (pushTick sample_stringify (Some sample_client) sample_user false 5
        (Some SecurityError) (mount store_bank_old session_empty) no_cloud).1.2,
     (pushTick sample_stringify (Some sample_client) sample_user false 5
        (Some SecurityError) (mount store_bank_old session_empty) no_cloud).2)
  ∧ lastPushedRef
      (pushTick sample_stringify (Some sample_client) sample_user false 5
         (Some SecurityError) (mount store_bank_old session_empty)
         no_cloud).1.2
    = lastPushedRef (mount store_bank_old session_empty).
Proof.
  assert (Hpush :
    pushTick sample_stringify (Some sample_client) sample_user false 5
      (Some SecurityError) (mount store_bank_old session_empty) no_cloud
    = (PushFailed SecurityError,
       (pushTick sample_stringify (Some sample_client) sample_user false 5
          (Some SecurityError) (mount store_bank_old session_empty)
          no_cloud).1.2,
       (pushTick sample_stringify (Some sample_client) sample_user false 5
          (Some SecurityError) (mount store_bank_old session_empty)
          no_cloud).2)) by reflexivity.
  split; [exact Hpush|].
  exact (proj1 (C8_failed_push_is_retried sample_stringify sample_client
                  sample_user false 5 6 (Some SecurityError) SecurityError
                  _ _ _ _ Hpush)).
Defined.

(** ** Backend not configured *)

(** C9: when either credential is absent the client is [null]; then a pull
    returns the no-data result and a push returns, both without a request and
    with the remote side untouched, for every identity and payload. The
    bootstrap effect stops at its guard, the timers are not installed, and the
    bodies of the timers, were they run, would leave localStorage and the
    remote side as they are. *)
Theorem C9_not_configured_is_a_no_op
    (JSON_stringify : gmap string string → string)
    (url key : option string) (userId : string) (user : option string)
    (payload : gmap string string) (now pushNow : N)
    (fault pushFault : option JsError) (loading cancelled typing : bool)
    (st : Status) (p : Panel) (c : Cloud) :
  url = None ∨ key = None →
  supabase url key = None
  ∧ pullFromCloud (supabase url key) userId fault c = (Return None, c)
  ∧ pushToCloud (supabase url key) userId payload now fault c = (Return tt, c)
  ∧ bootstrap JSON_stringify loading user (supabase url key) now pushNow fault
      pushFault cancelled p c
    = (BootNotRun, p, c)
  ∧ tickersInstalled user st (supabase url key) = false
  ∧ pullTick (supabase url key) userId now fault p c = (NoRemoteData, p, c)
  ∧ localStore
      (pushTick JSON_stringify (supabase url key) userId typing now fault p
         c).1.2
    = localStore p
  ∧ (pushTick JSON_stringify (supabase url key) userId typing now fault p c).2
    = c.
Proof.
  intros Habsent.
  assert (Hnull : supabase url key = None).
  { unfold supabase, isSupabaseConfigured.
    destruct Habsent as [-> | ->]; simpl; [done|].
    by rewrite andb_false_r. }
  rewrite Hnull. repeat split.
  - unfold bootstrap. by destruct loading, user.
  - unfold tickersInstalled. by destruct user.
  - apply pushTick_localStore.
  - by push_tick_guards p typing.
Qed.

Lemma C9_witness :
  ((None : option string) = None ∨ Some "anon-key" = None)
  ∧ pullFromCloud (supabase None (Some "anon-key")) sample_user None
      (cloud_with store_bank_old 7)
    = (Return None, cloud_with store_bank_old 7).
Proof.
  split; [by left|].
  exact (proj1 (proj2 (C9_not_configured_is_a_no_op sample_stringify None
                         (Some "anon-key") sample_user (Some sample_user)
                         store_bank_old 10 11 None None false false false idle
                         (mount store_bank_old session_empty)
                         (cloud_with store_bank_old 7) (or_introl eq_refl)))).
Defined.

(** An empty string is as good as an absent credential. *)
Example supabase_empty_key :
  supabase (Some "https://example.supabase.co") (Some "") = None.
Proof. reflexivity. Qed.

(** ** Empty remote payload *)

Lemma bootstrapPush_row JSON_stringify cl userId pushNow pulled p c :
  bootstrapPush JSON_stringify (Some cl) userId pushNow None pulled p c
  = (BootReady pulled,
     setMessage MsgSyncOn
       (setStatus ready
          (setLastSyncText pushNow
             (set_lastPushedRef
                (JSON_stringify (readLocalStoragePayload (localStore p))) p))),
     {| user_state :=
          <[userId := {| row_payload := readLocalStoragePayload (localStore p);
                         updated_at := pushNow |}]> (user_state c);
        requests :=
          Upsert userId {| row_payload := readLocalStoragePayload (localStore p);
                           updated_at := pushNow |} :: requests c |}).
Proof. reflexivity. Qed.

(** C10: a row whose payload is the empty object is handled like a missing
    row. The periodic pull returns at its first guard in both cases and leaves
    the tab as it is. The bootstrap effect ends in the same outcome and the
    same tab in both cases, whatever the network does; when nothing fails and
    the effect is not cancelled it skips the merge and the reload, keeps
    localStorage, and uploads the local snapshot, which replaces the empty
    payload: the remote table is then the same as if the row had been missing. *)
Theorem C10_empty_payload_is_no_remote_data
    (JSON_stringify : gmap string string → string)
    (cl : Client) (userId : string) (now pushNow t : N)
    (pullFault pushFault : option JsError) (cancelled : bool)
    (p : Panel) (c : Cloud) :
  let empty := with_row userId {| row_payload := ∅; updated_at := t |} c in
  let missing := without_row userId c in
  let boot := bootstrap JSON_stringify false (Some userId) (Some cl) now pushNow in
  (pullTick (Some cl) userId now None p empty).1 = (NoRemoteData, p)
  ∧ (pullTick (Some cl) userId now None p missing).1 = (NoRemoteData, p)
  ∧ (boot pullFault pushFault cancelled p empty).1
    = (boot pullFault pushFault cancelled p missing).1
  ∧ (boot None None false p empty).1.1 = BootReady NoRemoteData
  ∧ localStore (boot None None false p empty).1.2 = localStore p
  ∧ reloadTimers (boot None None false p empty).1.2 = reloadTimers p
  ∧ user_state (boot None None false p empty).2 !! userId
    = Some {| row_payload := readLocalStoragePayload (localStore p);
              updated_at := pushNow |}
  ∧ boot None None false p empty = boot None None false p missing.
Proof.
  intros empty missing boot.
  assert (Hempty : ∀ fault,
            pullFromCloud (Some cl) userId fault empty
            = (match fault with
               | Some e => Throw e
               | None => Return (Some ∅)
               end, sent (Select userId) empty)).
  { intros [e|]; unfold pullFromCloud, empty; simpl; [done|].
    by rewrite lookup_insert_eq. }
  assert (Hmissing : ∀ fault,
            pullFromCloud (Some cl) userId fault missing
            = (match fault with
               | Some e => Throw e
               | None => Return None
               end, sent (Select userId) missing)).
  { intros [e|]; unfold pullFromCloud, missing; simpl; [done|].
    by rewrite lookup_delete_eq. }
  assert (Hkeys : bool_decide (0 < length (Object_keys (∅ : gmap string string)))
                  = false) by done.
  assert (Hkeys0 : bool_decide (length (Object_keys (∅ : gmap string string)) = 0)
                   = true) by done.
  assert (Hboth : boot None None false p empty = boot None None false p missing).
  { unfold boot, bootstrap. rewrite Hempty, Hmissing, Hkeys.
    rewrite !bootstrapPush_row. unfold empty, missing, with_row, without_row, sent.
    simpl. by rewrite insert_insert_eq, insert_delete_eq. }
  split; [by unfold pullTick; rewrite Hempty, Hkeys0|].
  split; [by unfold pullTick; rewrite Hmissing|].
  split.
  { unfold boot, bootstrap. rewrite Hempty, Hmissing.
    destruct pullFault as [e|]; [done|]. destruct cancelled; [done|].
    rewrite Hkeys. unfold bootstrapPush.
    destruct pushFault as [e|]; reflexivity. }
  rewrite Hboth. unfold boot, bootstrap. rewrite Hmissing.
  rewrite bootstrapPush_row. simpl. rewrite lookup_insert_eq. done.
Qed.

(** ** Bootstrap *)

Lemma pullTick_outcome sb userId now fault p c :
  (pullTick sb userId now fault p c).1.1
  = pullOutcome (pullFromCloud sb userId fault c).1 (localStore p).
Proof.
  unfold pullTick, pullOutcome.
  destruct (pullFromCloud sb userId fault c) as [[[cloudPayload|]|e] c'];
    simpl; try done.
  case_bool_decide as Hkeys.
  - apply Object_keys_length_0 in Hkeys. by rewrite decide_True.
  - rewrite decide_False by (by rewrite <- Object_keys_length_0).
    destruct (isSame _ _) eqn:Hsame.
    + apply isSame_spec in Hsame. by rewrite decide_True.
    + rewrite decide_False; [done|].
      intros Hsub%isSame_spec. congruence.
Qed.

(** C7 (as amended): in a bootstrap that is past its guards, whose pull
    succeeded and which was not cancelled, the push of the local snapshot is
    performed exactly when no reload is scheduled: after a pull that found no
    remote data or found the tab up to date, and also after a pull that merged
    while the throttle refuses the reload. When the pull merged and the
    throttle allows it, the effect arms the reload timer and returns without
    a push. *)
Theorem C7_bootstrap_pushes_unless_it_reloads
    (JSON_stringify : gmap string string → string)
    (cl : Client) (userId : string) (now pushNow : N)
    (pushFault : option JsError) (p : Panel) (c : Cloud) :
  let r := bootstrap JSON_stringify false (Some userId) (Some cl) now pushNow
             None pushFault false p c in
  let pulled := pullOutcome (pullFromCloud (Some cl) userId None c).1
                  (localStore p) in
  let allowed := canAutoReloadNow now (sessionStore p) in
  bootPulled r.1.1 = Some pulled
  ∧ (pulled = NoRemoteData ∨ pulled = UpToDate ∨ pulled = Merged)
  ∧ (bootPushed r.1.1 = true ↔
       pulled = NoRemoteData ∨ pulled = UpToDate
       ∨ (pulled = Merged ∧ allowed = false))
  ∧ (bootPushed r.1.1 = true →
       upserts r.2 = S (upserts c) ∧ reloadTimers r.1.2 = reloadTimers p)
  ∧ (pulled = Merged ∧ allowed = true →
       r.1.1 = BootReload ∧ upserts r.2 = upserts c
       ∧ reloadTimers r.1.2 = now :: reloadTimers p).
Proof.
  intros r pulled allowed. subst r pulled allowed.
  unfold bootstrap, pullOutcome, pullFromCloud. cbn [fst snd].
  assert (Hpush : ∀ pulled q c0,
    let b := bootstrapPush JSON_stringify (Some cl) userId pushNow pushFault
               pulled q c0 in
    bootPulled b.1.1 = Some pulled ∧ bootPushed b.1.1 = true
    ∧ upserts b.2 = S (upserts c0) ∧ reloadTimers b.1.2 = reloadTimers q).
  { intros pulled q c0. unfold bootstrapPush, pushToCloud.
    destruct pushFault as [e|]; simpl;
      repeat split; try done; apply upserts_Upsert. }
  destruct (user_state c !! userId) as [[cloudPayload t]|] eqn:Hrow; cbn [fst snd].
  - simpl row_payload. case_bool_decide as Hkeys.
    + rewrite decide_False;
        [| rewrite <- Object_keys_length_0; lia ].
      destruct (isSame _ _) eqn:Hsame; cbn [negb andb].
      * apply isSame_spec in Hsame. rewrite decide_True by done.
        destruct (Hpush UpToDate (setMessage MsgChecked
                    (setMessage MsgLoading (setStatus syncing p)))
                    (sent (Select userId) c)) as (H1 & H2 & H3 & H4).
        rewrite upserts_Select in H3.
        repeat split; try done; try (intuition congruence).
      * assert (Hnsub : ¬ cloudPayload
                          ⊆ readLocalStoragePayload (localStore p)).
        { intros Hsub%isSame_spec. simpl in Hsame. congruence. }
        rewrite decide_False by done.
        destruct (canAutoReloadNow now (sessionStore p)) eqn:Hcan; simpl;
          rewrite Hcan; simpl.
        -- rewrite upserts_Select. repeat split; try done; intuition congruence.
        -- destruct (Hpush Merged (setMessage MsgMergedThrottled
                       (set_localStore
                          (writeLocalStoragePayload cloudPayload (localStore p))
                          (setMessage MsgLoading (setStatus syncing p))))
                       (sent (Select userId) c)) as (H1 & H2 & H3 & H4).
           rewrite upserts_Select in H3.
           repeat split; try done; try (intuition congruence).
    + rewrite decide_True; [| apply Object_keys_length_0; lia ].
      destruct (Hpush NoRemoteData (setMessage MsgLoading (setStatus syncing p))
                  (sent (Select userId) c)) as (H1 & H2 & H3 & H4).
      rewrite upserts_Select in H3.
      repeat split; try done; try (intuition congruence).
  - destruct (Hpush NoRemoteData (setMessage MsgLoading (setStatus syncing p))
                (sent (Select userId) c)) as (H1 & H2 & H3 & H4).
    rewrite upserts_Select in H3.
    repeat split; try done; try (intuition congruence).
Qed.

(** C7 as stated fails: the pull merged, the throttle refused the reload, and
    the bootstrap went on to push. *)
Lemma C7_counterexample :
  throttled_bootstrap.1.1 = BootReady Merged
  ∧ bootPulled throttled_bootstrap.1.1 = Some Merged
  ∧ bootPushed throttled_bootstrap.1.1 = true
  ∧ upserts throttled_bootstrap.2 = 1
  ∧ localStore throttled_bootstrap.1.2 = {[ "bankAccounts" := "v1" ]}
  ∧ reloadTimers throttled_bootstrap.1.2 = []
  ∧ Merged ≠ NoRemoteData ∧ Merged ≠ UpToDate.
Proof. repeat split; by vm_compute. Qed.

(** ** The reload throttle *)

Lemma String_of_N_nonempty (n : N) : String_of_N n ≠ "".
Proof.
  unfold String_of_N. intros Hs.
  pose proof (NilZero.usu (N.to_uint n) (N_to_uint_nonnil n)) as Hparse.
  rewrite Hs in Hparse. discriminate Hparse.
Qed.

Lemma getLastAutoReloadAt_marked (items : gmap string string) (t : N) :
  items !! AUTO_RELOAD_TS_KEY = Some (String_of_N t) →
  getLastAutoReloadAt (SessionItems items) = Num (Z.of_N t).
Proof.
  intros Hmark. unfold getLastAutoReloadAt, sessionStorage.getItem, or_else.
  rewrite Hmark.
  destruct (String.eqb_spec (String_of_N t) "") as [Hs|_].
  - by destruct (String_of_N_nonempty t).
  - apply Number_String_of_N.
Qed.

Lemma canAutoReloadNow_marked (items : gmap string string) (now t : N) :
  items !! AUTO_RELOAD_TS_KEY = Some (String_of_N t) →
  canAutoReloadNow now (SessionItems items)
  = (AUTO_RELOAD_INTERVAL_MS <=? Z.of_N now - Z.of_N t)%Z.
Proof.
  intros Hmark. unfold canAutoReloadNow.
  by rewrite (getLastAutoReloadAt_marked items t Hmark).
Qed.

(** With session storage blocked the last reload reads as 0. *)
Lemma canAutoReloadNow_blocked (now : N) :
  canAutoReloadNow now SessionBlocked
  = (AUTO_RELOAD_INTERVAL_MS <=? Z.of_N now)%Z.
Proof.
  unfold canAutoReloadNow, getLastAutoReloadAt; simpl. by rewrite Z.sub_0_r.
Qed.

Lemma reloadOrNotify_throttleStep (now : N) (p : Panel) :
  throttleStep now p (reloadOrNotify now p).
Proof.
  unfold throttleStep, reloadOrNotify.
  destruct (canAutoReloadNow now (sessionStore p)); [by right | by left].
Qed.

Lemma pullTick_throttleStep sb userId now fault p c :
  throttleStep now p (pullTick sb userId now fault p c).1.2.
Proof.
  unfold pullTick.
  destruct (pullFromCloud sb userId fault c) as [[[cloudPayload|]|e] c'];
    simpl; try by left.
  case_bool_decide; [by left|].
  destruct (isSame _ _); [by left|]. simpl.
  apply (reloadOrNotify_throttleStep now
           (set_localStore
              (writeLocalStoragePayload cloudPayload (localStore p)) p)).
Qed.

Lemma spaced_pairwise (timers : list N) (i j : nat) (t t' : N) :
  spaced timers → i < j → timers !! i = Some t → timers !! j = Some t' →
  (Z.of_N t' + AUTO_RELOAD_INTERVAL_MS ≤ Z.of_N t)%Z.
Proof.
  assert (Hpos : (0 < AUTO_RELOAD_INTERVAL_MS)%Z) by done.
  revert i j t. induction timers as [|a timers IH]; intros i j t Hsp Hij Hi Hj.
  { by rewrite lookup_nil in Hi. }
  destruct j as [|j]; [lia|].
  destruct timers as [|b timers]; [by rewrite lookup_cons, lookup_nil in Hj|].
  destruct Hsp as [Hab Hsp].
  destruct i as [|i].
  - injection Hi as ->.
    destruct j as [|j].
    + injection Hj as ->. exact Hab.
    + pose proof (IH 0 (S j) b Hsp ltac:(lia) eq_refl Hj). lia.
  - apply (IH i j t Hsp); [lia | exact Hi | exact Hj].
Qed.

Lemma throttleInv_mono (since since' : N) (p : Panel) :
  throttleInv since p → (since ≤ since')%N → throttleInv since' p.
Proof.
  intros (items & Hss & Hsp & Hmark) Hle. exists items.
  split; [done|]. split; [done|].
  destruct (reloadTimers p) as [|t ?]; [done|].
  destruct Hmark as [Hm Ht]. split; [done | lia].
Qed.

Lemma throttleInv_step (since now : N) (p p' : Panel) :
  throttleInv since p → (since ≤ now)%N → throttleStep now p p' →
  throttleInv now p'.
Proof.
  intros Hinv Hle [[Hss Htimers]|(Hcan & Hss & Htimers)].
  - apply (throttleInv_mono since); [|done].
    destruct Hinv as (items & Hs & Hsp & Hmark). exists items.
    by rewrite Hss, Htimers.
  - destruct Hinv as (items & Hs & Hsp & Hmark).
    exists (<[AUTO_RELOAD_TS_KEY := String_of_N now]> items).
    rewrite Hss, Htimers, Hs. split; [done|]. split.
    + destruct (reloadTimers p) as [|t rest]; [done|].
      destruct Hmark as [Hm Ht]. split; [|done].
      rewrite Hs, (canAutoReloadNow_marked items now t Hm) in Hcan.
      apply Z.leb_le in Hcan. lia.
    + split; [apply lookup_insert_eq | lia].
Qed.

Section Throttle.

Variable JSON_stringify : gmap string string → string.
Variable sb : option Client.

Lemma bootstrapPush_sessionStore userId pushNow pushFault pulled p c :
  sessionStore
    (bootstrapPush JSON_stringify sb userId pushNow pushFault pulled p c).1.2
  = sessionStore p.
Proof.
  unfold bootstrapPush. by destruct (pushToCloud _ _ _ _ _ _) as [[[]|e] c'].
Qed.

Lemma bootstrapPush_reloadTimers userId pushNow pushFault pulled p c :
  reloadTimers
    (bootstrapPush JSON_stringify sb userId pushNow pushFault pulled p c).1.2
  = reloadTimers p.
Proof.
  unfold bootstrapPush. by destruct (pushToCloud _ _ _ _ _ _) as [[[]|e] c'].
Qed.

Lemma bootstrap_throttleStep loading user now pushNow pullFault pushFault
    cancelled p c :
  throttleStep now p
    (bootstrap JSON_stringify loading user sb now pushNow pullFault pushFault
       cancelled p c).1.2.
Proof.
  assert (Hpush : ∀ userId pulled q c0,
            sessionStore q = sessionStore p → reloadTimers q = reloadTimers p →
            throttleStep now p
              (bootstrapPush JSON_stringify sb userId pushNow pushFault pulled
                 q c0).1.2).
  { intros userId pulled q c0 Hs Ht. left.
    by rewrite bootstrapPush_sessionStore, bootstrapPush_reloadTimers. }
  unfold bootstrap.
  destruct loading; [by left|]. destruct user as [userId|]; [|by left].
  destruct sb as [cl|]; [|by left].
  destruct (pullFromCloud _ userId pullFault c) as [[cloudPayload|e] c'];
    [|by left].
  destruct cancelled; [by left|].
  destruct cloudPayload as [cloudPayload|]; [|by apply Hpush].
  case_bool_decide; [|by apply Hpush].
  destruct (isSame _ _); cbn [negb andb]; [by apply Hpush|].
  cbn [sessionStore set_localStore setMessage setStatus].
  destruct (canAutoReloadNow now (sessionStore p)) eqn:Hcan.
  - right. by rewrite Hcan.
  - by apply Hpush.
Qed.

Lemma pushTick_throttle userId typing now fault p c :
  let p' := (pushTick JSON_stringify sb userId typing now fault p c).1.2 in
  sessionStore p' = sessionStore p ∧ reloadTimers p' = reloadTimers p.
Proof.
  push_tick_guards p typing.
  destruct (pushToCloud _ _ _ _ _ _) as [[[]|e] c']; done.
Qed.

Lemma run_throttleInv (es : list Event) (since : N) (p : Panel) (c : Cloud) :
  throttleInv since p → clockOrdered since es →
  ∃ since', throttleInv since' (run JSON_stringify sb es (p, c)).1.
Proof.
  revert since p c. induction es as [|e es IH]; intros since p c Hinv Hclock.
  { by exists since. }
  unfold run in *. cbn [foldl].
  destruct e; cbn [clockOrdered decisionTime] in Hclock; cbn [step].
  - destruct Hclock as [Hle Hclock].
    pose proof (bootstrap_throttleStep loading user now pushNow pullFault
                  pushFault cancelled p c) as Hstep.
    destruct (bootstrap _ _ _ _ _ _ _ _ _ _ _) as [[o p'] c'].
    apply (IH now p' c'); [|done]. by apply (throttleInv_step since now p).
  - destruct Hclock as [Hle Hclock].
    pose proof (pullTick_throttleStep sb userId now fault p c) as Hstep.
    destruct (pullTick _ _ _ _ _ _) as [[o p'] c'].
    apply (IH now p' c'); [|done]. by apply (throttleInv_step since now p).
  - pose proof (pushTick_throttle userId typing now fault p c) as Hstep.
    destruct (pushTick _ _ _ _ _ _ _ _) as [[o p'] c'].
    apply (IH since p' c'); [|done].
    destruct Hinv as (items & Hs & Hsp & Hmark). exists items.
    simpl in Hstep. destruct Hstep as [-> ->]. done.
  - apply (IH since); [|done].
    destruct Hinv as (items & Hs & Hsp & Hmark). by exists items.
  - apply (IH since); [|done].
    destruct Hinv as (items & Hs & Hsp & Hmark). by exists items.
  - by apply (IH since).
Qed.

End Throttle.

Lemma pullTick_Merged_inv sb userId now fault p c :
  (pullTick sb userId now fault p c).1.1 = Merged →
  ∃ cloudPayload,
    (pullTick sb userId now fault p c).1.2
    = reloadOrNotify now
        (set_localStore
           (writeLocalStoragePayload cloudPayload (localStore p)) p).
Proof.
  unfold pullTick.
  destruct (pullFromCloud sb userId fault c) as [[[cloudPayload|]|e] c'];
    simpl; try discriminate.
  case_bool_decide; [discriminate|].
  destruct (isSame _ _); [discriminate|]. intros _. by exists cloudPayload.
Qed.

(** C5: while session storage works, along every sequence of bootstraps,
    periodic pulls, pushes, page loads, saves by the app and uploads by other
    devices, with a clock that does not run backwards, any two reload timers
    that get armed lie at least one cooldown interval apart, so no window
    shorter than the interval sees two reloads. After a reload armed at [t], a
    periodic pull that merges at an instant less than the interval after [t]
    arms nothing and only sets the notice asking for a refresh; one that merges
    when the interval has elapsed arms the next reload. *)
Theorem C5_at_most_one_reload_per_window
    (JSON_stringify : gmap string string → string) (sb : option Client)
    (es : list Event) (since : N) (p : Panel) (c : Cloud)
    (items : gmap string string) :
  sessionStore p = SessionItems items → reloadTimers p = [] →
  clockOrdered since es →
  let p' := (run JSON_stringify sb es (p, c)).1 in
  (∀ i j t t', i < j →
     reloadTimers p' !! i = Some t → reloadTimers p' !! j = Some t' →
     (Z.of_N t' + AUTO_RELOAD_INTERVAL_MS ≤ Z.of_N t)%Z)
  ∧ (∀ userId now fault c2 t rest,
       reloadTimers p' = t :: rest →
       (pullTick sb userId now fault p' c2).1.1 = Merged →
       let p2 := (pullTick sb userId now fault p' c2).1.2 in
       if decide (Z.of_N now - Z.of_N t < AUTO_RELOAD_INTERVAL_MS)%Z
       then reloadTimers p2 = reloadTimers p' ∧ message p2 = MsgChangedThrottled
       else reloadTimers p2 = now :: reloadTimers p'
            ∧ message p2 = MsgChangedReloading).
Proof.
  intros Hss Htimers Hclock p'.
  assert (Hinv0 : throttleInv since p).
  { exists items. by rewrite Htimers. }
  destruct (run_throttleInv JSON_stringify sb es since p c Hinv0 Hclock)
    as (since' & items' & Hss' & Hsp & Hmark).
  fold p' in Hss', Hsp, Hmark. split.
  - intros i j t t' Hij Hi Hj. by apply (spaced_pairwise (reloadTimers p') i j).
  - intros userId now fault c2 t rest Hrest Hmerged p2.
    rewrite Hrest in Hmark. destruct Hmark as [Hm _].
    destruct (pullTick_Merged_inv sb userId now fault p' c2 Hmerged)
      as [cloudPayload Hp2].
    subst p2. rewrite Hp2. unfold reloadOrNotify.
    cbn [sessionStore set_localStore]. rewrite Hss'.
    rewrite (canAutoReloadNow_marked items' now t Hm).
    case_decide as Hlt.
    + rewrite (proj2 (Z.leb_gt _ _)) by lia. done.
    + rewrite (proj2 (Z.leb_le _ _)) by lia. done.
Qed.

Lemma sample_day_clock : clockOrdered 0 sample_day.
Proof. unfold sample_day, T0; simpl. repeat split; lia. Qed.

Lemma C5_witness :
  sessionStore (mount store_bank_old session_empty) = SessionItems ∅
  ∧ reloadTimers (mount store_bank_old session_empty) = []
  ∧ clockOrdered 0 sample_day
  ∧ reloadTimers (sample_day_end session_empty).1 !! 0 = Some (T0 + 3720000)%N
  ∧ reloadTimers (sample_day_end session_empty).1 !! 1 = Some T0
  ∧ (Z.of_N T0 + AUTO_RELOAD_INTERVAL_MS ≤ Z.of_N (T0 + 3720000))%Z.
Proof.
  assert (H0 : reloadTimers (sample_day_end session_empty).1 !! 0
               = Some (T0 + 3720000)%N) by (by vm_compute).
  assert (H1 : reloadTimers (sample_day_end session_empty).1 !! 1 = Some T0)
    by (by vm_compute).
  split; [reflexivity|]. split; [reflexivity|]. split; [apply sample_day_clock|].
  split; [exact H0|]. split; [exact H1|].
  exact (proj1 (C5_at_most_one_reload_per_window sample_stringify
                  (Some sample_client) sample_day 0
                  (mount store_bank_old session_empty)
                  (cloud_with {[ "bankAccounts" := "v1" ]} 7) ∅
                  eq_refl eq_refl sample_day_clock)
               0 1 (T0 + 3720000)%N T0 (le_n 1) H0 H1).
Defined.

(** The sample day with working session storage: the merge two minutes after
    the first reload only asks for a refresh, the one after more than an hour
    reloads again. *)
Example sample_day_throttled :
  reloadTimers (sample_day_end session_empty).1 = [(T0 + 3720000)%N; T0]
  ∧ localStore (sample_day_end session_empty).1 = {[ "bankAccounts" := "v3" ]}
  ∧ message (sample_day_end session_empty).1 = MsgChangedReloading.
Proof. repeat split; by vm_compute. Qed.

Example second_merge_is_throttled :
  let r := bootstrap sample_stringify false (Some sample_user)
             (Some sample_client) (T0 + 120000) (T0 + 120100) None None false
             (mount {[ "bankAccounts" := "v1" ]} (session_marked T0))
             (cloud_with {[ "bankAccounts" := "v2" ]} 7) in
  r.1.1 = BootReady Merged ∧ reloadTimers r.1.2 = []
  ∧ localStore r.1.2 = {[ "bankAccounts" := "v2" ]}.
Proof. repeat split; by vm_compute. Qed.

(** Sign-out removes the mark: a reload is allowed again at once. *)
Example signOut_lifts_the_throttle :
  canAutoReloadNow (T0 + 1000) (session_marked T0) = false
  ∧ canAutoReloadNow (T0 + 1000)
      (sessionStore
         (signOut (Some sample_client) (mount store_bank_old (session_marked T0))))
    = true.
Proof. split; by vm_compute. Qed.

(** A run of the push timer that finds [pushingRef] set returns at once, and
    its [finally] block clears the flag. *)
Lemma pushTick_in_flight JSON_stringify sb userId typing now fault p c :
  pushingRef p = true →
  pushTick JSON_stringify sb userId typing now fault p c
  = (InFlight, set_pushingRef false p, c).
Proof. intros Hflag. unfold pushTick, pushTick_begin. by rewrite Hflag. Qed.

(** C6 fails on the code: with session storage blocked the read of the mark
    falls back to 0 and the write is swallowed, so at any instant later than
    one interval after the epoch the reload is allowed, it stays allowed after
    being taken, and every periodic pull that merges arms a reload timer. On
    the sample day every merge arms one, the second two minutes after the
    first. *)
Theorem C6_blocked_storage_reloads_on_every_merge :
  (∀ now, canAutoReloadNow now SessionBlocked
          = (AUTO_RELOAD_INTERVAL_MS <=? Z.of_N now)%Z)
  ∧ (∀ now, markAutoReloadNow now SessionBlocked = SessionBlocked)
  ∧ (∀ sb userId now fault p c,
       sessionStore p = SessionBlocked →
       (AUTO_RELOAD_INTERVAL_MS ≤ Z.of_N now)%Z →
       (pullTick sb userId now fault p c).1.1 = Merged →
       reloadTimers (pullTick sb userId now fault p c).1.2
       = now :: reloadTimers p
       ∧ sessionStore (pullTick sb userId now fault p c).1.2 = SessionBlocked)
  ∧ canAutoReloadNow (T0 + 120000) (markAutoReloadNow T0 SessionBlocked) = true
  ∧ reloadTimers (sample_day_end SessionBlocked).1
    = [(T0 + 3720000)%N; (T0 + 120000)%N; T0].
Proof.
  split; [apply canAutoReloadNow_blocked|]. split; [done|].
  split; [|split; by vm_compute].
  intros sb userId now fault p c Hss Hnow Hmerged.
  destruct (pullTick_Merged_inv sb userId now fault p c Hmerged)
    as [cloudPayload ->].
  unfold reloadOrNotify. cbn [sessionStore set_localStore].
  rewrite Hss, canAutoReloadNow_blocked, (proj2 (Z.leb_le _ _)) by done.
  done.
Qed.

(** * Further properties of the synchronisation code *)

(** ** cloudSync.ts: snapshots and merges *)

(** X1: writing the snapshot of the synced keys back over the storage it was
    read from changes nothing. *)
Theorem X1_write_of_own_snapshot (ls : gmap string string) :
  writeLocalStoragePayload (readLocalStoragePayload ls) ls = ls.
Proof.
  apply writeLocalStoragePayload_same, readLocalStoragePayload_subseteq.
Qed.

Lemma readLocalStoragePayload_write (payload ls : gmap string string)
    (k : string) :
  readLocalStoragePayload (writeLocalStoragePayload payload ls) !! k
  = if decide (k ∈ SYNC_KEYS) then (payload ∪ ls) !! k else None.
Proof.
  by rewrite readLocalStoragePayload_lookup, writeLocalStoragePayload_union.
Qed.

Lemma read_write_synced (payload ls : gmap string string) :
  payloadSynced payload →
  readLocalStoragePayload (writeLocalStoragePayload payload ls)
  = payload ∪ readLocalStoragePayload ls.
Proof.
  intros Hp. apply map_eq. intros k.
  rewrite readLocalStoragePayload_write, !lookup_union,
    readLocalStoragePayload_lookup.
  case_decide as Hk; [done|].
  destruct (payload !! k) as [v|] eqn:Hv; [|done].
  destruct Hk. apply Hp. by exists v.
Qed.

(** X2: after a payload that binds synced keys only has been written, the
    snapshot is that payload laid over the previous snapshot; the payload
    itself then compares as the same. *)
Theorem X2_snapshot_after_write (payload ls : gmap string string) :
  payloadSynced payload →
  readLocalStoragePayload (writeLocalStoragePayload payload ls)
  = payload ∪ readLocalStoragePayload ls
  ∧ isSame payload
      (readLocalStoragePayload (writeLocalStoragePayload payload ls)) = true.
Proof.
  intros Hp. rewrite read_write_synced by done. split; [done|].
  apply isSame_spec, map_union_subseteq_l.
Qed.

Lemma bank_payload_synced :
  payloadSynced ({[ "bankAccounts" := "v1" ]} : gmap string string).
Proof.
  intros k [v Hv]. apply lookup_singleton_Some in Hv as [<- _].
  apply (bool_decide_unpack _). by vm_compute.
Qed.

Lemma X2_witness :
  payloadSynced ({[ "bankAccounts" := "v1" ]} : gmap string string)
  ∧ readLocalStoragePayload
      (writeLocalStoragePayload {[ "bankAccounts" := "v1" ]} store_with_theme)
    = {[ "bankAccounts" := "v1" ]} ∪ readLocalStoragePayload store_with_theme.
Proof.
  split; [apply bank_payload_synced|].
  exact (proj1 (X2_snapshot_after_write {[ "bankAccounts" := "v1" ]}
                  store_with_theme bank_payload_synced)).
Defined.

(** X3: two writes in a row amount to one write of the second payload laid
    over the first, so the later write wins on shared keys; writing the same
    payload twice is the same as writing it once. *)
Theorem X3_writes_compose (p1 p2 ls : gmap string string) :
  writeLocalStoragePayload p2 (writeLocalStoragePayload p1 ls)
  = writeLocalStoragePayload (p2 ∪ p1) ls
  ∧ writeLocalStoragePayload p1 (writeLocalStoragePayload p1 ls)
    = writeLocalStoragePayload p1 ls.
Proof.
  rewrite !writeLocalStoragePayload_union. split.
  - by rewrite (assoc_L (∪)).
  - by rewrite (assoc_L (∪)), (idemp_L (∪)).
Qed.

(** X4: the snapshot depends on the synced keys and on nothing else: two
    storages have the same snapshot exactly when they agree on every synced
    key. *)
Theorem X4_snapshot_reads_synced_keys_only (ls1 ls2 : gmap string string) :
  readLocalStoragePayload ls1 = readLocalStoragePayload ls2
  ↔ ∀ k, k ∈ SYNC_KEYS → ls1 !! k = ls2 !! k.
Proof.
  split.
  - intros Heq k Hk.
    pose proof (readLocalStoragePayload_lookup ls1 k) as H1.
    pose proof (readLocalStoragePayload_lookup ls2 k) as H2.
    rewrite decide_True in H1, H2 by done. congruence.
  - intros Hagree. apply map_eq. intros k.
    rewrite !readLocalStoragePayload_lookup.
    case_decide; [by apply Hagree | done].
Qed.

(** X5: the remote table is keyed by user: after a successful upload for one
    user a download for that user returns the uploaded payload, whatever was
    stored before, and a download for any other user returns what it returned
    before the upload. *)
Theorem X5_upload_then_download (cl : Client) (userId other : string)
    (payload : gmap string string) (now : N) (c : Cloud) :
  (pullFromCloud (Some cl) other None
     (pushToCloud (Some cl) userId payload now None c).2).1
  = if decide (other = userId) then Return (Some payload)
    else (pullFromCloud (Some cl) other None c).1.
Proof.
  unfold pullFromCloud, pushToCloud. cbn [fst snd user_state].
  case_decide as Hu.
  - subst other. by rewrite lookup_insert_eq.
  - rewrite lookup_insert_ne by done.
    by destruct (user_state c !! other).
Qed.

(** ** CloudSyncPanel: the push timer *)

Lemma sample_digest_fresh :
  sample_stringify
    (readLocalStoragePayload (localStore (mount store_bank_old session_empty)))
  ≠ lastPushedRef (mount store_bank_old session_empty).
Proof. by vm_compute. Qed.

(** X6: a run of the push timer while the focus is in a text field, with no
    push in flight and a snapshot that differs from the last one pushed,
    sends nothing and keeps the digest; the next run with the focus elsewhere
    uploads the snapshot. *)
Theorem X6_typing_defers_the_push
    (JSON_stringify : gmap string string → string)
    (cl : Client) (userId : string) (now now2 : N) (fault : option JsError)
    (p : Panel) (c : Cloud) :
  pushingRef p = false →
  JSON_stringify (readLocalStoragePayload (localStore p)) ≠ lastPushedRef p →
  pushTick JSON_stringify (Some cl) userId true now fault p c
  = (WhileTyping, set_pushingRef false p, c)
  ∧ (pushTick JSON_stringify (Some cl) userId false now2 None
       (set_pushingRef false p) c).1.1 = Pushed
  ∧ requests (pushTick JSON_stringify (Some cl) userId false now2 None
                (set_pushingRef false p) c).2
    = Upsert userId {| row_payload := readLocalStoragePayload (localStore p);
                       updated_at := now2 |} :: requests c.
Proof.
  intros Hflag Hjson. apply String.eqb_neq in Hjson.
  unfold pushTick, pushTick_begin. simpl. by rewrite Hflag, Hjson.
Qed.

Lemma X6_witness :
  pushingRef (mount store_bank_old session_empty) = false
  ∧ sample_stringify
      (readLocalStoragePayload
         (localStore (mount store_bank_old session_empty)))
    ≠ lastPushedRef (mount store_bank_old session_empty)
  ∧ pushTick sample_stringify (Some sample_client) sample_user true 5 None
      (mount store_bank_old session_empty) no_cloud
    = (WhileTyping, set_pushingRef false (mount store_bank_old session_empty),
       no_cloud).
Proof.
  split; [reflexivity|]. split; [apply sample_digest_fresh|].
  exact (proj1 (X6_typing_defers_the_push sample_stringify sample_client
                  sample_user 5 6 None (mount store_bank_old session_empty)
                  no_cloud eq_refl sample_digest_fresh)).
Defined.

(** X7: the in-flight flag does not survive a skipped run. When a run of the
    push timer has raised the flag and is waiting for the network, the next
    run returns at the flag without a request, but its [finally] block lowers
    the flag; the run after that starts a second request for the same
    snapshot although the first has not settled. *)
Theorem X7_skipped_run_lowers_the_in_flight_flag
    (JSON_stringify : gmap string string → string) (typing : bool) (p : Panel) :
  pushingRef p = false →
  JSON_stringify (readLocalStoragePayload (localStore p)) ≠ lastPushedRef p →
  let payload := readLocalStoragePayload (localStore p) in
  let json := JSON_stringify payload in
  pushTick_begin JSON_stringify false p
  = (PushAwait payload json, set_pushingRef true p)
  ∧ pushTick_begin JSON_stringify typing (set_pushingRef true p)
    = (PushOver InFlight, set_pushingRef false p)
  ∧ pushTick_begin JSON_stringify false (set_pushingRef false p)
    = (PushAwait payload json, set_pushingRef true p).
Proof.
  intros Hflag Hjson payload json. subst payload json.
  apply String.eqb_neq in Hjson.
  unfold pushTick_begin. simpl. by rewrite Hflag, Hjson.
Qed.

Lemma X7_witness :
  pushingRef (mount store_bank_old session_empty) = false
  ∧ sample_stringify
      (readLocalStoragePayload
         (localStore (mount store_bank_old session_empty)))
    ≠ lastPushedRef (mount store_bank_old session_empty)
  ∧ pushTick_begin sample_stringify true
      (set_pushingRef true (mount store_bank_old session_empty))
    = (PushOver InFlight,
       set_pushingRef false (mount store_bank_old session_empty)).
Proof.
  split; [reflexivity|]. split; [apply sample_digest_fresh|].
  exact (proj1 (proj2 (X7_skipped_run_lowers_the_in_flight_flag
                         sample_stringify true
                         (mount store_bank_old session_empty) eq_refl
                         sample_digest_fresh))).
Defined.

(** ** CloudSyncPanel: the mark of the last reload *)

(** X8: with working session storage the mark written at one instant is read
    back as that instant: the reload is refused at every later instant less
    than one interval after the mark, and allowed from exactly one interval
    on. *)
Theorem X8_mark_is_read_back (items : gmap string string) (marked now : N) :
  getLastAutoReloadAt (markAutoReloadNow marked (SessionItems items))
  = Num (Z.of_N marked)
  ∧ canAutoReloadNow now (markAutoReloadNow marked (SessionItems items))
    = (AUTO_RELOAD_INTERVAL_MS <=? Z.of_N now - Z.of_N marked)%Z.
Proof.
  unfold markAutoReloadNow; simpl. split.
  - apply getLastAutoReloadAt_marked, lookup_insert_eq.
  - apply canAutoReloadNow_marked, lookup_insert_eq.
Qed.

(** X9: signing out removes the mark and nothing else of the data: with
    working session storage the next reload decision is taken as in a fresh
    session, while localStorage and the digest of the last push stay as they
    were. Without a client [signOut] does nothing. *)
Theorem X9_signOut_forgets_the_mark_only (cl : Client) (p : Panel)
    (items : gmap string string) (now : N) :
  sessionStore p = SessionItems items →
  canAutoReloadNow now (sessionStore (signOut (Some cl) p))
  = (AUTO_RELOAD_INTERVAL_MS <=? Z.of_N now)%Z
  ∧ localStore (signOut (Some cl) p) = localStore p
  ∧ lastPushedRef (signOut (Some cl) p) = lastPushedRef p
  ∧ status (signOut (Some cl) p) = idle
  ∧ signOut None p = p.
Proof.
  intros Hss. unfold signOut, clearAutoReloadMark; simpl. rewrite Hss; simpl.
  repeat split.
  unfold canAutoReloadNow, getLastAutoReloadAt; simpl.
  rewrite lookup_delete_eq; simpl. by rewrite Z.sub_0_r.
Qed.

Lemma X9_witness :
  sessionStore (mount store_bank_old (session_marked T0))
  = SessionItems {[ AUTO_RELOAD_TS_KEY := String_of_N T0 ]}
  ∧ canAutoReloadNow (T0 + 1000)
      (sessionStore
         (signOut (Some sample_client)
            (mount store_bank_old (session_marked T0))))
    = (AUTO_RELOAD_INTERVAL_MS <=? Z.of_N (T0 + 1000))%Z.
Proof.
  split; [reflexivity|].
  exact (proj1 (X9_signOut_forgets_the_mark_only sample_client
                  (mount store_bank_old (session_marked T0))
                  {[ AUTO_RELOAD_TS_KEY := String_of_N T0 ]} (T0 + 1000)
                  eq_refl)).
Defined.

(** ** CloudSyncPanel: the periodic pull *)

(** A pull that neither merges nor fails returns the tab it was given. *)
Lemma pullTick_quiet sb userId now fault p c :
  (pullTick sb userId now fault p c).1.1 = NoRemoteData
  ∨ (pullTick sb userId now fault p c).1.1 = UpToDate →
  (pullTick sb userId now fault p c).1.2 = p.
Proof.
  unfold pullTick.
  destruct (pullFromCloud sb userId fault c) as [[[cloudPayload|]|e] c'];
    simpl; try done.
  - case_bool_decide; [done|].
    destruct (isSame _ _); [done|]. by intros [?|?].
  - by intros [?|?].
Qed.

Lemma pullFromCloud_sent_Select cl userId other c :
  (pullFromCloud (Some cl) userId None (sent (Select other) c)).1
  = (pullFromCloud (Some cl) userId None c).1.
Proof. unfold pullFromCloud; simpl. by destruct (user_state c !! userId). Qed.

Lemma pullOutcome_after_merge (remote ls : gmap string string) :
  payloadSynced remote →
  pullOutcome (Return (Some remote)) (remote ∪ ls)
  = if decide (remote = ∅) then NoRemoteData else UpToDate.
Proof.
  intros Hsynced. unfold pullOutcome. case_decide; [done|].
  rewrite decide_True; [done|].
  rewrite <- writeLocalStoragePayload_union, read_write_synced by done.
  apply map_union_subseteq_l.
Qed.

(** X10: the periodic pull settles after one run. When the remote payload
    binds synced keys only, a second pull against the same remote row, right
    after a first one of any outcome, finds nothing to do: it reports
    UpToDate (NoRemoteData for an empty payload) and returns the tab as the
    first pull left it. *)
Theorem X10_second_pull_finds_nothing (cl : Client) (userId : string)
    (now now2 : N) (p : Panel) (c c' : Cloud) (remote : gmap string string) :
  pullFromCloud (Some cl) userId None c = (Return (Some remote), c') →
  payloadSynced remote →
  let first := pullTick (Some cl) userId now None p c in
  pullTick (Some cl) userId now2 None first.1.2 first.2
  = (if decide (remote = ∅) then NoRemoteData else UpToDate, first.1.2,
     sent (Select userId) first.2).
Proof.
  intros Hpull Hsynced first.
  assert (Hls : localStore first.1.2 = remote ∪ localStore p).
  { subst first. by rewrite pullTick_localStore, Hpull. }
  assert (Hc : first.2 = sent (Select userId) c).
  { subst first. rewrite pullTick_cloud, Hpull. simpl.
    unfold pullFromCloud in Hpull. destruct (user_state c !! userId);
      by injection Hpull as _ <-. }
  assert (Hagain : (pullFromCloud (Some cl) userId None first.2).1
                   = Return (Some remote)).
  { by rewrite Hc, pullFromCloud_sent_Select, Hpull. }
  pose proof (pullTick_outcome (Some cl) userId now2 None first.1.2 first.2)
    as Hout.
  rewrite Hagain, Hls, pullOutcome_after_merge in Hout by done.
  pose proof (pullTick_quiet (Some cl) userId now2 None first.1.2 first.2)
    as Hquiet.
  pose proof (pullTick_cloud (Some cl) userId now2 None first.1.2 first.2)
    as Hcloud.
  destruct (pullTick (Some cl) userId now2 None first.1.2 first.2)
    as [[o p2] c2]. simpl in *. subst o.
  rewrite Hquiet by (case_decide; auto). rewrite Hcloud.
  repeat f_equal. unfold pullFromCloud. simpl.
  by destruct (user_state first.2 !! userId).
Qed.

Lemma X10_witness :
  pullFromCloud (Some sample_client) sample_user None
    (cloud_with {[ "bankAccounts" := "v1" ]} 7)
  = (Return (Some {[ "bankAccounts" := "v1" ]}),
     sent (Select sample_user) (cloud_with {[ "bankAccounts" := "v1" ]} 7))
  ∧ payloadSynced ({[ "bankAccounts" := "v1" ]} : gmap string string)
  ∧ (pullTick (Some sample_client) sample_user 10 None
       (mount store_bank_old session_empty)
       (cloud_with {[ "bankAccounts" := "v1" ]} 7)).1.1 = Merged
  ∧ (pullTick (Some sample_client) sample_user 20 None
       (pullTick (Some sample_client) sample_user 10 None
          (mount store_bank_old session_empty)
          (cloud_with {[ "bankAccounts" := "v1" ]} 7)).1.2
       (pullTick (Some sample_client) sample_user 10 None
          (mount store_bank_old session_empty)
          (cloud_with {[ "bankAccounts" := "v1" ]} 7)).2).1.1
    = UpToDate.
Proof.
  split; [reflexivity|]. split; [apply bank_payload_synced|].
  split; [by vm_compute|].
  rewrite (X10_second_pull_finds_nothing sample_client sample_user 10 20
             (mount store_bank_old session_empty)
             (cloud_with {[ "bankAccounts" := "v1" ]} 7)
             (sent (Select sample_user)
                (cloud_with {[ "bankAccounts" := "v1" ]} 7))
             {[ "bankAccounts" := "v1" ]} eq_refl bank_payload_synced).
  by vm_compute.
Defined.

(** X11: a remote payload that binds a key outside the synced set is never
    up to date: the comparison looks that key up in the snapshot, which
    cannot hold it, so every pull merges, whatever localStorage holds, also
    when it holds the very same values. *)
Theorem X11_unsynced_remote_key_always_merges (cl : Client) (userId : string)
    (now : N) (p : Panel) (c c' : Cloud) (remote : gmap string string)
    (k v : string) :
  pullFromCloud (Some cl) userId None c = (Return (Some remote), c') →
  remote !! k = Some v → k ∉ SYNC_KEYS →
  (pullTick (Some cl) userId now None p c).1.1 = Merged.
Proof.
  intros Hpull Hk Hunsynced.
  rewrite pullTick_outcome, Hpull. unfold pullOutcome; simpl.
  rewrite decide_False.
  2:{ intros ->. by rewrite lookup_empty in Hk. }
  rewrite decide_False; [done|].
  intros Hsub. apply Hunsynced.
  apply (readLocalStoragePayload_synced (localStore p)).
  exists v. by apply (lookup_weaken _ _ _ _ Hk Hsub).
Qed.

Lemma X11_witness :
  pullFromCloud (Some sample_client) sample_user None
    (cloud_with {[ "theme" := "dark" ]} 7)
  = (Return (Some {[ "theme" := "dark" ]}),
     sent (Select sample_user) (cloud_with {[ "theme" := "dark" ]} 7))
  ∧ ({[ "theme" := "dark" ]} : gmap string string) !! "theme" = Some "dark"
  ∧ ("theme" ∉ SYNC_KEYS)
  ∧ (pullTick (Some sample_client) sample_user 10 None
       (mount store_with_theme session_empty)
       (cloud_with {[ "theme" := "dark" ]} 7)).1.1 = Merged.
Proof.
  split; [reflexivity|]. split; [reflexivity|]. split; [apply theme_not_synced|].
  exact (X11_unsynced_remote_key_always_merges sample_client sample_user 10
           (mount store_with_theme session_empty)
           (cloud_with {[ "theme" := "dark" ]} 7)
           (sent (Select sample_user) (cloud_with {[ "theme" := "dark" ]} 7))
           {[ "theme" := "dark" ]} "theme" "dark" eq_refl eq_refl
           theme_not_synced).
Defined.

(** ** CloudSyncPanel: the bootstrap effect *)

Section BootstrapFacts.

Variable JSON_stringify : gmap string string → string.

(** Splits the upload at the end of the effect by the fate of its request. *)
Ltac upload_tail :=
  unfold bootstrapPush;
  destruct (pushToCloud _ _ _ _ _ _) as [[[]|?] ?]; simpl.

(** Where the effect leaves the status, by outcome. *)
Lemma bootstrap_status loading user sb now pushNow pullFault pushFault
    cancelled p c :
  let r := bootstrap JSON_stringify loading user sb now pushNow pullFault
             pushFault cancelled p c in
  match r.1.1 with
  | BootNotRun => r.1.2 = p ∧ r.2 = c
  | BootPullFailed e | BootPushFailed _ e =>
      status r.1.2 = error ∧ message r.1.2 = MsgFailure e
      ∧ console r.1.2 = e :: console p
  | BootCancelled | BootReload => status r.1.2 = syncing
  | BootReady _ => status r.1.2 = ready ∧ message r.1.2 = MsgSyncOn
  end.
Proof.
  unfold bootstrap.
  destruct loading; [done|]. destruct user as [userId|]; [|done].
  destruct sb as [cl|]; [|done].
  destruct (pullFromCloud _ userId pullFault c) as [[cloudPayload|e] c1];
    [|done].
  destruct cancelled; [done|].
  destruct cloudPayload as [cloudPayload|]; [|by upload_tail].
  case_bool_decide; [|by upload_tail].
  destruct (isSame _ _); cbn [negb andb]; [by upload_tail|].
  destruct (canAutoReloadNow _ _); [done | by upload_tail].
Qed.

(** The effect past its guards, with a pull that succeeded and no
    cancellation: it reloads when the pull merged and the throttle allows. *)
Lemma bootstrap_reloads cl userId now pushNow pushFault p c :
  pullOutcome (pullFromCloud (Some cl) userId None c).1 (localStore p) = Merged →
  canAutoReloadNow now (sessionStore p) = true →
  let q := setMessage MsgLoading (setStatus syncing p) in
  bootstrap JSON_stringify false (Some userId) (Some cl) now pushNow None
    pushFault false p c
  = (BootReload,
     scheduleReload now
       (setMessage MsgMergedReloading
          (set_sessionStore (markAutoReloadNow now (sessionStore p))
             (set_localStore
                (writeLocalStoragePayload
                   (delivered (pullFromCloud (Some cl) userId None c).1)
                   (localStore p)) q))),
     sent (Select userId) c).
Proof.
  intros Hout Hcan q. unfold bootstrap, pullOutcome in *.
  unfold pullFromCloud in *. cbn [fst snd] in *.
  destruct (user_state c !! userId) as [[remote t]|]; cbn [fst snd] in *;
    [|done].
  simpl row_payload in *. simpl delivered.
  destruct (decide (remote = ∅)) as [|Hne]; [done|].
  destruct (decide (remote ⊆ _)) as [|Hnsub]; [done|].
  rewrite bool_decide_eq_true_2.
  2:{ destruct (Object_keys remote) eqn:Hkeys; simpl; [|lia].
      destruct Hne. by apply Object_keys_length_0; rewrite Hkeys. }
  destruct (isSame _ _) eqn:Hsame.
  { by apply isSame_spec in Hsame. }
  simpl. by rewrite Hcan.
Qed.

(** Otherwise it goes on to the upload, from a tab that differs from the
    given one in localStorage (the delivered payload laid over it), status and
    message only. *)
Lemma bootstrap_pushes cl userId now pushNow pushFault p c :
  let pulled := pullOutcome (pullFromCloud (Some cl) userId None c).1
                  (localStore p) in
  pulled ≠ Merged ∨ canAutoReloadNow now (sessionStore p) = false →
  ∃ q,
    localStore q
    = delivered (pullFromCloud (Some cl) userId None c).1 ∪ localStore p
    ∧ sessionStore q = sessionStore p ∧ reloadTimers q = reloadTimers p
    ∧ pushingRef q = pushingRef p ∧ console q = console p
    ∧ bootstrap JSON_stringify false (Some userId) (Some cl) now pushNow None
        pushFault false p c
      = bootstrapPush JSON_stringify (Some cl) userId pushNow pushFault pulled
          q (sent (Select userId) c).
Proof.
  intros pulled Hcase. subst pulled. unfold bootstrap, pullOutcome in *.
  unfold pullFromCloud in *. cbn [fst snd] in *.
  set (q0 := setMessage MsgLoading (setStatus syncing p)).
  destruct (user_state c !! userId) as [[remote t]|]; cbn [fst snd] in *.
  2:{ exists q0. repeat split; try done. simpl.
      by rewrite (left_id_L ∅ (∪)). }
  simpl row_payload in *. simpl delivered.
  destruct (decide (remote = ∅)) as [->|Hne].
  { rewrite bool_decide_eq_false_2
      by (rewrite (proj2 (Object_keys_length_0 ∅) eq_refl); lia).
    exists q0. repeat split; try done. simpl.
    by rewrite (left_id_L ∅ (∪)). }
  rewrite bool_decide_eq_true_2.
  2:{ destruct (Object_keys remote) eqn:Hkeys; simpl; [|lia].
      destruct Hne. by apply Object_keys_length_0; rewrite Hkeys. }
  destruct (isSame _ _) eqn:Hsame.
  - pose proof Hsame as Hsub%isSame_spec. simpl in Hsub.
    rewrite decide_True by done.
    exists (setMessage MsgChecked q0). repeat split; try done. simpl.
    by rewrite isSame_read_union.
  - assert (Hnsub : ¬ remote ⊆ readLocalStoragePayload (localStore p)).
    { intros Hsub%isSame_spec. simpl in Hsame. congruence. }
    rewrite decide_False in Hcase by done. rewrite decide_False by done.
    destruct Hcase as [|Hcan]; [done|]. simpl. rewrite Hcan. simpl.
    exists (setMessage MsgMergedThrottled
              (set_localStore
                 (writeLocalStoragePayload remote (localStore p)) q0)).
    repeat split; try done. simpl.
    by rewrite writeLocalStoragePayload_union.
Qed.

End BootstrapFacts.

Lemma pullOutcome_Merged_inv (r : Completion (option (gmap string string)))
    (ls : gmap string string) :
  pullOutcome r ls = Merged →
  ∃ remote, r = Return (Some remote) ∧ remote ≠ ∅
            ∧ ¬ remote ⊆ readLocalStoragePayload ls.
Proof.
  unfold pullOutcome. destruct r as [[remote|]|e]; try done.
  destruct (decide (remote = ∅)); [done|].
  destruct (decide (remote ⊆ _)); [done|]. intros _. by exists remote.
Qed.

(** How the effect, past its guards and with a pull that succeeded, came to
    report [BootReady]: the upload went through, from a tab whose localStorage
    is the delivered payload laid over the old contents. *)
Lemma bootstrap_ready_inv JSON_stringify cl userId now pushNow pushFault p c
    pulled :
  (bootstrap JSON_stringify false (Some userId) (Some cl) now pushNow None
     pushFault false p c).1.1 = BootReady pulled →
  ∃ q,
    localStore q
    = delivered (pullFromCloud (Some cl) userId None c).1 ∪ localStore p
    ∧ sessionStore q = sessionStore p ∧ reloadTimers q = reloadTimers p
    ∧ pushingRef q = pushingRef p
    ∧ bootstrap JSON_stringify false (Some userId) (Some cl) now pushNow None
        pushFault false p c
      = bootstrapPush JSON_stringify (Some cl) userId pushNow None pulled q
          (sent (Select userId) c).
Proof.
  intros Hready.
  destruct (pullOutcome (pullFromCloud (Some cl) userId None c).1 (localStore p))
    eqn:Hout, (canAutoReloadNow now (sessionStore p)) eqn:Hcan.
  all: try (rewrite (bootstrap_reloads JSON_stringify cl userId now pushNow
                       pushFault p c Hout Hcan) in Hready; discriminate Hready).
  all: destruct (bootstrap_pushes JSON_stringify cl userId now pushNow pushFault
                   p c) as (q & Hls & Hss & Ht & Hflag & _ & Hboot);
    [rewrite Hout; (by left) || (by right)|].
  all: rewrite Hboot, Hout in Hready |- *; unfold bootstrapPush in Hready;
    destruct pushFault as [?|]; simpl in Hready; [discriminate Hready|];
    injection Hready as <-; by exists q.
Qed.

(** X12: a bootstrap that ends ready has established the baseline: the row
    of the user holds the snapshot of localStorage as the effect leaves it,
    and the digest kept for the push timer is the digest of that snapshot, so
    the next run of the push timer sends nothing; with no push in flight it
    reports Unchanged. *)
Theorem X12_bootstrap_leaves_a_baseline
    (JSON_stringify : gmap string string → string)
    (cl : Client) (userId : string) (now pushNow now2 : N)
    (pushFault fault2 : option JsError) (typing : bool)
    (p : Panel) (c : Cloud) (pulled : PullOutcome) :
  let r := bootstrap JSON_stringify false (Some userId) (Some cl) now pushNow
             None pushFault false p c in
  r.1.1 = BootReady pulled →
  user_state r.2 !! userId
  = Some {| row_payload := readLocalStoragePayload (localStore r.1.2);
            updated_at := pushNow |}
  ∧ lastPushedRef r.1.2
    = JSON_stringify (readLocalStoragePayload (localStore r.1.2))
  ∧ (pushTick JSON_stringify (Some cl) userId typing now2 fault2 r.1.2 r.2).2
    = r.2
  ∧ (pushingRef p = false →
     (pushTick JSON_stringify (Some cl) userId typing now2 fault2 r.1.2
        r.2).1.1 = Unchanged).
Proof.
  intros r Hready. subst r.
  destruct (bootstrap_ready_inv JSON_stringify cl userId now pushNow pushFault
              p c pulled Hready) as (q & _ & _ & _ & Hflag & ->).
  rewrite bootstrapPush_row. cbn [fst snd]. simpl.
  split; [by rewrite lookup_insert_eq|]. split; [done|].
  unfold pushTick, pushTick_begin. simpl. rewrite Hflag.
  destruct (pushingRef p); [by split|]. by rewrite String.eqb_refl.
Qed.

Lemma X12_witness :
  (bootstrap sample_stringify false (Some sample_user) (Some sample_client)
     10 11 None None false (mount store_bank_old session_empty) no_cloud).1.1
  = BootReady NoRemoteData
  ∧ user_state
      (bootstrap sample_stringify false (Some sample_user)
         (Some sample_client) 10 11 None None false
         (mount store_bank_old session_empty) no_cloud).2 !! sample_user
    = Some {| row_payload :=
                readLocalStoragePayload
                  (localStore
                     (bootstrap sample_stringify false (Some sample_user)
                        (Some sample_client) 10 11 None None false
                        (mount store_bank_old session_empty) no_cloud).1.2);
              updated_at := 11 |}.
Proof.
  assert (Hready :
    (bootstrap sample_stringify false (Some sample_user) (Some sample_client)
       10 11 None None false (mount store_bank_old session_empty)
       no_cloud).1.1 = BootReady NoRemoteData) by reflexivity.
  split; [exact Hready|].
  exact (proj1 (X12_bootstrap_leaves_a_baseline sample_stringify sample_client
                  sample_user 10 11 20 None None false
                  (mount store_bank_old session_empty) no_cloud NoRemoteData
                  Hready)).
Defined.

(** X13: a bootstrap whose pull or upload fails leaves the status at error,
    shows the message of the error and logs it; with that status the guards
    of the two periodic effects do not install their timers, so neither the
    periodic pull nor the periodic push runs afterwards. *)
Theorem X13_failed_bootstrap_stops_the_timers
    (JSON_stringify : gmap string string → string)
    (loading cancelled : bool) (user : option string) (sb : option Client)
    (now pushNow : N) (pullFault pushFault : option JsError)
    (p : Panel) (c : Cloud) (e : JsError) :
  let r := bootstrap JSON_stringify loading user sb now pushNow pullFault
             pushFault cancelled p c in
  r.1.1 = BootPullFailed e ∨ (∃ pulled, r.1.1 = BootPushFailed pulled e) →
  status r.1.2 = error
  ∧ message r.1.2 = MsgFailure e
  ∧ console r.1.2 = e :: console p
  ∧ tickersInstalled user (status r.1.2) sb = false.
Proof.
  intros r Hfailed.
  pose proof (bootstrap_status JSON_stringify loading user sb now pushNow
                pullFault pushFault cancelled p c) as Hst.
  cbv zeta in Hst. fold r in Hst.
  assert (Hgoal : status r.1.2 = error ∧ message r.1.2 = MsgFailure e
                  ∧ console r.1.2 = e :: console p).
  { destruct Hfailed as [Heq|[pulled Heq]]; by rewrite Heq in Hst. }
  destruct Hgoal as (Hs & Hm & Hc). repeat split; try done.
  rewrite Hs. unfold tickersInstalled. by destruct user, sb.
Qed.

Lemma X13_witness :
  ((bootstrap sample_stringify false (Some sample_user) (Some sample_client)
      10 11 (Some SecurityError) None false
      (mount store_bank_old session_empty) no_cloud).1.1
   = BootPullFailed SecurityError
   ∨ ∃ pulled,
       (bootstrap sample_stringify false (Some sample_user)
          (Some sample_client) 10 11 (Some SecurityError) None false
          (mount store_bank_old session_empty) no_cloud).1.1
       = BootPushFailed pulled SecurityError)
  ∧ tickersInstalled (Some sample_user)
      (status
         (bootstrap sample_stringify false (Some sample_user)
            (Some sample_client) 10 11 (Some SecurityError) None false
            (mount store_bank_old session_empty) no_cloud).1.2)
      (Some sample_client)
    = false.
Proof.
  assert (Hfailed :
    (bootstrap sample_stringify false (Some sample_user) (Some sample_client)
       10 11 (Some SecurityError) None false
       (mount store_bank_old session_empty) no_cloud).1.1
    = BootPullFailed SecurityError
    ∨ ∃ pulled,
        (bootstrap sample_stringify false (Some sample_user)
           (Some sample_client) 10 11 (Some SecurityError) None false
           (mount store_bank_old session_empty) no_cloud).1.1
        = BootPushFailed pulled SecurityError) by (by left).
  split; [exact Hfailed|].
  exact (proj2 (proj2 (proj2
    (X13_failed_bootstrap_stops_the_timers sample_stringify false false
       (Some sample_user) (Some sample_client) 10 11 (Some SecurityError) None
       (mount store_bank_old session_empty) no_cloud SecurityError Hfailed)))).
Defined.

(** X14: the reload does not repeat by itself. When a bootstrap has merged a
    remote payload of synced keys and armed the reload, the bootstrap that
    runs after the page has loaded again, against the same remote row, finds
    the tab up to date: it arms no timer, keeps localStorage, and goes on to
    the upload. *)
Theorem X14_bootstrap_after_the_reload_is_up_to_date
    (JSON_stringify : gmap string string → string)
    (cl : Client) (userId : string) (now pushNow now2 pushNow2 : N)
    (pushFault : option JsError) (p : Panel) (c : Cloud) :
  cloudSynced c →
  let first := bootstrap JSON_stringify false (Some userId) (Some cl) now
                 pushNow None pushFault false p c in
  first.1.1 = BootReload →
  let second := bootstrap JSON_stringify false (Some userId) (Some cl) now2
                  pushNow2 None None false (pageLoad first.1.2) first.2 in
  second.1.1 = BootReady UpToDate
  ∧ reloadTimers second.1.2 = reloadTimers first.1.2
  ∧ localStore second.1.2 = localStore first.1.2.
Proof.
  intros Hc first Hreload second. subst first second.
  destruct (pullOutcome (pullFromCloud (Some cl) userId None c).1 (localStore p))
    eqn:Hout, (canAutoReloadNow now (sessionStore p)) eqn:Hcan.
  all: try (destruct (bootstrap_pushes JSON_stringify cl userId now pushNow
                        pushFault p c) as (q & _ & _ & _ & _ & _ & Hboot);
            [rewrite Hout; (by left) || (by right)|];
            rewrite Hboot in Hreload; unfold bootstrapPush in Hreload;
            destruct pushFault; simpl in Hreload; discriminate Hreload).
  rewrite (bootstrap_reloads JSON_stringify cl userId now pushNow pushFault
             p c Hout Hcan) in *. cbn [fst snd].
  destruct (pullOutcome_Merged_inv _ _ Hout) as (remote & Hresp & Hne & _).
  pose proof (pullFromCloud_synced (Some cl) userId None c Hc) as [_ Hsynced].
  rewrite Hresp in *. simpl delivered in *.
  set (q1 := pageLoad _).
  assert (Hls : localStore q1 = remote ∪ localStore p).
  { subst q1. simpl. apply writeLocalStoragePayload_union. }
  assert (Hout2 : pullOutcome
                    (pullFromCloud (Some cl) userId None
                       (sent (Select userId) c)).1 (localStore q1)
                  = UpToDate).
  { rewrite pullFromCloud_sent_Select, Hresp, Hls.
    rewrite pullOutcome_after_merge by done. by rewrite decide_False. }
  destruct (bootstrap_pushes JSON_stringify cl userId now2 pushNow2 None q1
              (sent (Select userId) c))
    as (q2 & Hls2 & _ & Ht2 & _ & _ & Hboot2).
  { rewrite Hout2. by left. }
  rewrite Hboot2, Hout2, bootstrapPush_row. cbn [fst snd]. simpl.
  split; [done|]. split; [by rewrite Ht2|].
  rewrite Hls2, pullFromCloud_sent_Select, Hresp. simpl delivered.
  rewrite Hls. by rewrite (assoc_L (∪)), (idemp_L (∪)).
Qed.

Lemma bank_cloud_synced : cloudSynced (cloud_with {[ "bankAccounts" := "v1" ]} 7).
Proof.
  split; intros userId row H; simpl in H.
  - apply lookup_singleton_Some in H as [_ <-]. apply bank_payload_synced.
  - by apply elem_of_nil in H.
Qed.

Lemma X14_witness :
  cloudSynced (cloud_with {[ "bankAccounts" := "v1" ]} 7)
  ∧ (bootstrap sample_stringify false (Some sample_user) (Some sample_client)
       T0 (T0 + 100) None None false (mount store_bank_old session_empty)
       (cloud_with {[ "bankAccounts" := "v1" ]} 7)).1.1 = BootReload
  ∧ (bootstrap sample_stringify false (Some sample_user) (Some sample_client)
       (T0 + 1000) (T0 + 1100) None None false
       (pageLoad
          (bootstrap sample_stringify false (Some sample_user)
             (Some sample_client) T0 (T0 + 100) None None false
             (mount store_bank_old session_empty)
             (cloud_with {[ "bankAccounts" := "v1" ]} 7)).1.2)
       (bootstrap sample_stringify false (Some sample_user)
          (Some sample_client) T0 (T0 + 100) None None false
          (mount store_bank_old session_empty)
          (cloud_with {[ "bankAccounts" := "v1" ]} 7)).2).1.1
    = BootReady UpToDate.
Proof.
  assert (Hreload :
    (bootstrap sample_stringify false (Some sample_user) (Some sample_client)
       T0 (T0 + 100) None None false (mount store_bank_old session_empty)
       (cloud_with {[ "bankAccounts" := "v1" ]} 7)).1.1 = BootReload)
    by (by vm_compute).
  split; [apply bank_cloud_synced|]. split; [exact Hreload|].
  exact (proj1 (X14_bootstrap_after_the_reload_is_up_to_date sample_stringify
                  sample_client sample_user T0 (T0 + 100) (T0 + 1000)
                  (T0 + 1100) None (mount store_bank_old session_empty)
                  (cloud_with {[ "bankAccounts" := "v1" ]} 7)
                  bank_cloud_synced Hreload)).
Defined.

(** ** App.tsx: the save button *)

Lemma supabase_configured (url key : option string) :
  isSupabaseConfigured url key = true → is_Some (supabase url key).
Proof. intros H. unfold supabase. by rewrite H. Qed.

(** Closes the case of a save stopped at one of its guards. *)
Ltac save_stopped :=
  split;
  [ split;
    [ discriminate
    | intros (H1 & H2 & H3 & H4);
      first [ discriminate H1 | discriminate H2 | by destruct H3 ] ]
  | split; [ intros ? Heq; discriminate Heq | done ] ].

(** X15: the save button uploads exactly when the backend is configured, the
    session is known, a user is signed in and the request succeeds; the row of
    that user is then the snapshot of the synced keys, whatever digest the
    panel holds, and a periodic pull on a tab with that localStorage returns
    the tab as it is. When a guard stops the button, nothing is sent and its
    state is untouched. *)
Theorem X15_save_button_uploads_the_snapshot
    (url key : option string) (authLoading : bool) (user : option string)
    (now : N) (fault : option JsError) (a : SaveState)
    (ls : gmap string string) (c : Cloud) :
  let r := onSave url key authLoading user now fault a ls c in
  (r.1.1 = SaveDone ↔
     isSupabaseConfigured url key = true ∧ authLoading = false
     ∧ is_Some user ∧ fault = None)
  ∧ (∀ userId, r.1.1 = SaveDone → user = Some userId →
       user_state r.2 !! userId
       = Some {| row_payload := readLocalStoragePayload ls; updated_at := now |}
       ∧ upserts r.2 = S (upserts c)
       ∧ ∀ cl pullNow p, localStore p = ls →
           (pullTick (Some cl) userId pullNow None p r.2).1.2 = p)
  ∧ (r.1.1 = SaveNotConfigured ∨ r.1.1 = SaveWhileLoading
     ∨ r.1.1 = SaveSignedOut → r.1.2 = a ∧ r.2 = c).
Proof.
  intros r. subst r. unfold onSave.
  destruct (isSupabaseConfigured url key) eqn:Hconf; simpl.
  2:{ save_stopped. }
  destruct (supabase_configured url key Hconf) as [cl Hcl]. rewrite Hcl.
  rewrite bool_decide_eq_true_2 by done. simpl.
  destruct authLoading; [save_stopped|].
  destruct user as [userId|]; [|save_stopped].
  unfold pushToCloud. destruct fault as [e|]; simpl.
  { split; [split; [discriminate | by intros (_ & _ & _ & ?)]|].
    split; [intros ? Heq; discriminate Heq | by intros [?|[?|?]]]. }
  split; [by split; [intros _; repeat split; eauto | ]|].
  split; [|by intros [?|[?|?]]].
  intros userId' _ [= <-]. split; [by rewrite lookup_insert_eq|].
  split; [apply upserts_Upsert|].
  intros cl' pullNow p <-.
  by rewrite (pullTick_of_own_snapshot cl' userId pullNow now p (user_state c)).
Qed.

(** ** CloudSyncPanel, one-shot revision *)

Lemma OneShot_pageLife_reloads JSON_stringify cl userId (row : Row) q c t :
  user_state c !! userId = Some row → row_payload row ≠ ∅ →
  OneShot.pageLife JSON_stringify cl userId (q, c) t
  = ({| OneShot.tab :=
          scheduleReload t
            (setMessage MsgMergedReloading
               (set_localStore
                  (writeLocalStoragePayload (row_payload row)
                     (localStore (OneShot.tab q)))
                  (setMessage MsgLoading
                     (setStatus syncing (pageLoad (OneShot.tab q))))));
        OneShot.reloadedAfterPullRef := true |},
     sent (Select userId) c).
Proof.
  intros Hrow Hne. unfold OneShot.pageLife, OneShot.bootstrap, pullFromCloud.
  cbn [fst snd OneShot.remount OneShot.reloadedAfterPullRef OneShot.tab].
  rewrite Hrow. rewrite bool_decide_eq_true_2; [done|].
  destruct (Object_keys (row_payload row)) eqn:Hkeys; simpl; [|lia].
  destruct Hne. by apply Object_keys_length_0; rewrite Hkeys.
Qed.

(** X16: in the one-shot revision a remote payload with at least one key
    makes every page load end in a reload. However many times the page loads
    and the bootstrap runs, each run overwrites localStorage with the remote
    payload and arms a reload timer; none reaches the upload, so the remote
    row never changes and the status never leaves syncing. *)
Theorem X16_one_shot_reloads_on_every_page_load
    (JSON_stringify : gmap string string → string)
    (cl : Client) (userId : string) (row : Row) (ts : list N)
    (q : OneShot.Component) (c : Cloud) :
  user_state c !! userId = Some row → row_payload row ≠ ∅ →
  let final := foldl (OneShot.pageLife JSON_stringify cl userId) (q, c) ts in
  reloadTimers (OneShot.tab final.1)
  = (reverse ts ++ reloadTimers (OneShot.tab q))%list
  ∧ upserts final.2 = upserts c
  ∧ user_state final.2 = user_state c
  ∧ (ts ≠ [] →
     status (OneShot.tab final.1) = syncing
     ∧ localStore (OneShot.tab final.1)
       = row_payload row ∪ localStore (OneShot.tab q)).
Proof.
  intros Hrow Hne. induction ts as [|t ts IH] using rev_ind; [done|].
  cbv zeta in *. rewrite foldl_snoc, reverse_snoc.
  destruct (foldl _ (q, c) ts) as [q' c'] eqn:Hfold. cbn [fst snd] in IH.
  destruct IH as (Ht & Hu & Hust & Hlast).
  rewrite (OneShot_pageLife_reloads JSON_stringify cl userId row q' c' t)
    by (by rewrite ?Hust).
  cbn [fst snd OneShot.tab]. simpl.
  rewrite Ht, upserts_Select. repeat split; try done.
  rewrite writeLocalStoragePayload_union.
  destruct ts as [|t0 ts] using rev_ind.
  - simpl in Hfold. by injection Hfold as <- <-.
  - rewrite (proj2 (Hlast ltac:(by destruct ts))).
    by rewrite (assoc_L (∪)), (idemp_L (∪)).
Qed.

Lemma X16_witness :
  user_state (cloud_with {[ "bankAccounts" := "v1" ]} 7) !! sample_user
  = Some {| row_payload := {[ "bankAccounts" := "v1" ]}; updated_at := 7 |}
  ∧ ({[ "bankAccounts" := "v1" ]} : gmap string string) ≠ ∅
  ∧ reloadTimers
      (OneShot.tab
         (foldl (OneShot.pageLife sample_stringify sample_client sample_user)
            ({| OneShot.tab := mount {[ "bankAccounts" := "v1" ]} session_empty;
                OneShot.reloadedAfterPullRef := false |},
             cloud_with {[ "bankAccounts" := "v1" ]} 7)
            [T0; (T0 + 5000)%N; (T0 + 10000)%N]).1)
    = (reverse [T0; (T0 + 5000)%N; (T0 + 10000)%N]
       ++ reloadTimers
            (OneShot.tab
               {| OneShot.tab :=
                    mount {[ "bankAccounts" := "v1" ]} session_empty;
                  OneShot.reloadedAfterPullRef := false |}))%list.
Proof.
  assert (Hne : ({[ "bankAccounts" := "v1" ]} : gmap string string) ≠ ∅).
  { apply insert_non_empty. }
  split; [reflexivity|]. split; [exact Hne|].
  exact (proj1 (X16_one_shot_reloads_on_every_page_load sample_stringify
                  sample_client sample_user
                  {| row_payload := {[ "bankAccounts" := "v1" ]};
                     updated_at := 7 |}
                  [T0; (T0 + 5000)%N; (T0 + 10000)%N]
                  {| OneShot.tab :=
                       mount {[ "bankAccounts" := "v1" ]} session_empty;
                     OneShot.reloadedAfterPullRef := false |}
                  (cloud_with {[ "bankAccounts" := "v1" ]} 7) eq_refl Hne)).
Defined.

(** ** CloudSyncPanel, lean revision *)

Lemma Object_keys_length_size (o : gmap string string) :
  length (Object_keys o) = size o.
Proof. unfold Object_keys. by rewrite length_fmap, length_map_to_list. Qed.

Lemma shallowEqualPayload_eq (a b : gmap string string) :
  Lean.shallowEqualPayload a b = true ↔ a = b.
Proof.
  unfold Lean.shallowEqualPayload. rewrite !Object_keys_length_size. split.
  - destruct (Nat.eqb_spec (size a) (size b)) as [Hsize|]; [|done]. simpl.
    intros Hall. apply map_subseteq_size_eq; [|lia].
    apply isSame_spec. unfold isSame. rewrite forallb_forall in *.
    intros k Hk. apply bool_decide_eq_true. symmetry.
    exact (proj1 (bool_decide_eq_true _) (Hall k Hk)).
  - intros <-. rewrite Nat.eqb_refl. simpl.
    apply (isSame_refl a).
Qed.

(** X17: the comparison of the lean revision is equality of the two payloads:
    same keys, same values. It is therefore symmetric, and stricter than the
    comparison of the throttled revision, which only asks the remote keys to
    agree. *)
Theorem X17_shallowEqualPayload_is_equality (a b : gmap string string) :
  (Lean.shallowEqualPayload a b = true ↔ a = b)
  ∧ Lean.shallowEqualPayload a b = Lean.shallowEqualPayload b a
  ∧ (Lean.shallowEqualPayload a b = true → isSame b a = true).
Proof.
  split; [apply shallowEqualPayload_eq|]. split.
  - destruct (Lean.shallowEqualPayload a b) eqn:Hab,
             (Lean.shallowEqualPayload b a) eqn:Hba; try done.
    + apply shallowEqualPayload_eq in Hab as ->.
      by rewrite (proj2 (shallowEqualPayload_eq b b) eq_refl) in Hba.
    + apply shallowEqualPayload_eq in Hba as ->.
      by rewrite (proj2 (shallowEqualPayload_eq a a) eq_refl) in Hab.
  - intros ->%shallowEqualPayload_eq. apply isSame_refl.
Qed.

Lemma reload_key_not_synced : Lean.AUTO_RELOAD_KEY ∉ SYNC_KEYS.
Proof. apply (bool_decide_unpack _). by vm_compute. Qed.

Lemma readLocalStoragePayload_insert_unsynced (ls : gmap string string)
    (k v : string) :
  k ∉ SYNC_KEYS →
  readLocalStoragePayload (<[k := v]> ls) = readLocalStoragePayload ls.
Proof.
  intros Hk. apply map_eq. intros k'. rewrite !readLocalStoragePayload_lookup.
  case_decide as Hk'; [|done]. apply lookup_insert_ne. by intros ->.
Qed.

(** X18: in the lean revision an empty remote payload is not skipped. When
    the local snapshot binds a key, a pull that is handed the empty object
    takes the branch of a difference: it writes nothing, yet announces a sync
    and, when the throttle allows, stores the mark and arms a reload. *)
Theorem X18_lean_pull_reloads_on_an_empty_payload (cl : Client)
    (userId : string) (seen : bool) (now : N) (p : Lean.Panel) (c c' : Cloud)
    (items : gmap string string) :
  Lean.storage p = Lean.StorageItems items →
  readLocalStoragePayload items ≠ ∅ →
  pullFromCloud (Some cl) userId None c = (Return (Some ∅), c') →
  let r := Lean.pullOnce (Some userId) (Some cl) seen now None p c in
  r.1.1 = Some Merged
  ∧ (Lean.canAutoReloadNow seen now p = false →
     Lean.storage r.1.2 = Lean.StorageItems items
     ∧ Lean.reloads r.1.2 = Lean.reloads p
     ∧ Lean.notice r.1.2 = Lean.NoticeRefreshByHand)
  ∧ (Lean.canAutoReloadNow seen now p = true →
     Lean.storage r.1.2
     = Lean.StorageItems (<[Lean.AUTO_RELOAD_KEY := String_of_N now]> items)
     ∧ Lean.reloads r.1.2 = now :: Lean.reloads p
     ∧ Lean.notice r.1.2 = Lean.NoticeReloading).
Proof.
  intros Hst Hne Hpull r. subst r. unfold Lean.pullOnce.
  rewrite Hpull, Hst.
  rewrite (proj1 (not_true_iff_false _)).
  2:{ intros Heq%shallowEqualPayload_eq. done. }
  assert (Hw : writeLocalStoragePayload ∅ items = items).
  { rewrite writeLocalStoragePayload_union. apply (left_id_L ∅ (∪)). }
  rewrite Hw.
  assert (Hcan : Lean.canAutoReloadNow seen now
                   (Lean.set_storage (Lean.StorageItems items) p)
                 = Lean.canAutoReloadNow seen now p).
  { unfold Lean.canAutoReloadNow, Lean.getLastAutoReloadAt. simpl.
    by rewrite Hst. }
  rewrite Hcan.
  destruct (Lean.canAutoReloadNow seen now p); simpl.
  - split; [done|]. split; [done|]. intros _.
    unfold Lean.markAutoReloadNow. simpl. done.
  - split; [done|]. split; [|done]. intros _. done.
Qed.

Lemma X18_witness :
  Lean.storage
    {| Lean.storage := Lean.StorageItems store_bank_old;
       Lean.autoReloadDisabled := false; Lean.lastAutoReloadAtRef := 0;
       Lean.notice := Lean.NoticeNone; Lean.toasts := [];
       Lean.reloads := []; Lean.errors := [] |}
  = Lean.StorageItems store_bank_old
  ∧ readLocalStoragePayload store_bank_old ≠ ∅
  ∧ pullFromCloud (Some sample_client) sample_user None (cloud_with ∅ 7)
    = (Return (Some ∅), sent (Select sample_user) (cloud_with ∅ 7))
  ∧ (Lean.pullOnce (Some sample_user) (Some sample_client) false T0 None
       {| Lean.storage := Lean.StorageItems store_bank_old;
          Lean.autoReloadDisabled := false; Lean.lastAutoReloadAtRef := 0;
          Lean.notice := Lean.NoticeNone; Lean.toasts := [];
          Lean.reloads := []; Lean.errors := [] |}
       (cloud_with ∅ 7)).1.1
    = Some Merged.
Proof.
  assert (Hne : readLocalStoragePayload store_bank_old ≠ ∅) by (by vm_compute).
  split; [reflexivity|]. split; [exact Hne|]. split; [reflexivity|].
  exact (proj1 (X18_lean_pull_reloads_on_an_empty_payload sample_client
                  sample_user false T0
                  {| Lean.storage := Lean.StorageItems store_bank_old;
                     Lean.autoReloadDisabled := false;
                     Lean.lastAutoReloadAtRef := 0;
                     Lean.notice := Lean.NoticeNone; Lean.toasts := [];
                     Lean.reloads := []; Lean.errors := [] |}
                  (cloud_with ∅ 7) (sent (Select sample_user) (cloud_with ∅ 7))
                  store_bank_old eq_refl Hne eq_refl)).
Defined.

Lemma union_absorbs_iff (remote r : gmap string string) :
  remote ∪ r = remote ↔ dom r ⊆ dom remote.
Proof.
  split.
  - intros Heq k Hk. rewrite <- Heq, dom_union_L. set_solver.
  - intros Hdom. apply map_eq. intros k. rewrite lookup_union.
    destruct (remote !! k) as [v|] eqn:Hv; [by destruct (r !! k)|].
    apply not_elem_of_dom in Hv.
    assert (Hr : r !! k = None) by (apply not_elem_of_dom; set_solver).
    by rewrite Hr.
Qed.

(** Whatever the first pull of the lean revision does with a payload of
    synced keys, the snapshot afterwards is that payload laid over the old
    snapshot. *)
Lemma lean_pull_snapshot cl userId seen now p c c' items remote :
  Lean.storage p = Lean.StorageItems items → payloadSynced remote →
  pullFromCloud (Some cl) userId None c = (Return (Some remote), c') →
  let r := Lean.pullOnce (Some userId) (Some cl) seen now None p c in
  r.2 = c'
  ∧ ∃ items1, Lean.storage r.1.2 = Lean.StorageItems items1
              ∧ readLocalStoragePayload items1
                = remote ∪ readLocalStoragePayload items.
Proof.
  intros Hst Hsynced Hpull r. subst r. unfold Lean.pullOnce.
  rewrite Hpull, Hst.
  destruct (Lean.shallowEqualPayload _ _) eqn:Heq.
  - apply shallowEqualPayload_eq in Heq. split; [done|].
    exists items. split; [done|]. by rewrite Heq, (idemp_L (∪)).
  - destruct (Lean.canAutoReloadNow _ _ _); (split; [done|]).
    + eexists. split; [reflexivity|].
      rewrite readLocalStoragePayload_insert_unsynced
        by apply reload_key_not_synced.
      by apply read_write_synced.
    + eexists. split; [reflexivity|]. by apply read_write_synced.
Qed.

(** X19: the pull of the lean revision settles only when localStorage has no
    synced key that the remote payload lacks. After a first pull of a payload
    of synced keys, a second pull against the same row reports UpToDate when
    every key of the old snapshot is a key of the payload, and otherwise
    finds a difference again. *)
Theorem X19_lean_pull_settles_iff_no_extra_local_key (cl : Client)
    (userId : string) (seen seen2 : bool) (now now2 : N) (p : Lean.Panel)
    (c c' : Cloud) (items remote : gmap string string) :
  Lean.storage p = Lean.StorageItems items → payloadSynced remote →
  pullFromCloud (Some cl) userId None c = (Return (Some remote), c') →
  let first := Lean.pullOnce (Some userId) (Some cl) seen now None p c in
  let second := Lean.pullOnce (Some userId) (Some cl) seen2 now2 None
                  first.1.2 first.2 in
  second.1.1
  = Some (if decide (dom (readLocalStoragePayload items) ⊆ dom remote)
          then UpToDate else Merged).
Proof.
  intros Hst Hsynced Hpull first second.
  destruct (lean_pull_snapshot cl userId seen now p c c' items remote Hst
              Hsynced Hpull) as (Hc & items1 & Hst1 & Hsnap).
  fold first in Hc, Hst1. subst second. unfold Lean.pullOnce.
  assert (Hagain : pullFromCloud (Some cl) userId None first.2
                   = (Return (Some remote), sent (Select userId) first.2)).
  { rewrite Hc. unfold pullFromCloud in *.
    destruct (user_state c !! userId) as [row|] eqn:Hrow; [|done].
    injection Hpull as Hrow' <-. simpl. by rewrite Hrow, Hrow'. }
  rewrite Hagain, Hst1, Hsnap.
  destruct (Lean.shallowEqualPayload _ _) eqn:Heq.
  - apply shallowEqualPayload_eq, union_absorbs_iff in Heq.
    by rewrite decide_True.
  - rewrite decide_False.
    + by destruct (Lean.canAutoReloadNow _ _ _).
    + intros Hdom%union_absorbs_iff%shallowEqualPayload_eq. congruence.
Qed.

Lemma X19_witness :
  Lean.storage
    {| Lean.storage := Lean.StorageItems {[ "assetTrend" := "a1" ]};
       Lean.autoReloadDisabled := false; Lean.lastAutoReloadAtRef := 0;
       Lean.notice := Lean.NoticeNone; Lean.toasts := [];
       Lean.reloads := []; Lean.errors := [] |}
  = Lean.StorageItems {[ "assetTrend" := "a1" ]}
  ∧ payloadSynced ({[ "bankAccounts" := "v1" ]} : gmap string string)
  ∧ pullFromCloud (Some sample_client) sample_user None
      (cloud_with {[ "bankAccounts" := "v1" ]} 7)
    = (Return (Some {[ "bankAccounts" := "v1" ]}),
       sent (Select sample_user) (cloud_with {[ "bankAccounts" := "v1" ]} 7))
  ∧ (Lean.pullOnce (Some sample_user) (Some sample_client) false
       (T0 + 30000) None
       (Lean.pullOnce (Some sample_user) (Some sample_client) false T0 None
          {| Lean.storage := Lean.StorageItems {[ "assetTrend" := "a1" ]};
             Lean.autoReloadDisabled := false; Lean.lastAutoReloadAtRef := 0;
             Lean.notice := Lean.NoticeNone; Lean.toasts := [];
             Lean.reloads := []; Lean.errors := [] |}
          (cloud_with {[ "bankAccounts" := "v1" ]} 7)).1.2
       (Lean.pullOnce (Some sample_user) (Some sample_client) false T0 None
          {| Lean.storage := Lean.StorageItems {[ "assetTrend" := "a1" ]};
             Lean.autoReloadDisabled := false; Lean.lastAutoReloadAtRef := 0;
             Lean.notice := Lean.NoticeNone; Lean.toasts := [];
             Lean.reloads := []; Lean.errors := [] |}
          (cloud_with {[ "bankAccounts" := "v1" ]} 7)).2).1.1
    = Some Merged.
Proof.
  split; [reflexivity|]. split; [apply bank_payload_synced|].
  split; [reflexivity|].
  rewrite (X19_lean_pull_settles_iff_no_extra_local_key sample_client
             sample_user false false T0 (T0 + 30000)
             {| Lean.storage := Lean.StorageItems {[ "assetTrend" := "a1" ]};
                Lean.autoReloadDisabled := false;
                Lean.lastAutoReloadAtRef := 0;
                Lean.notice := Lean.NoticeNone; Lean.toasts := [];
                Lean.reloads := []; Lean.errors := [] |}
             (cloud_with {[ "bankAccounts" := "v1" ]} 7)
             (sent (Select sample_user)
                (cloud_with {[ "bankAccounts" := "v1" ]} 7))
             {[ "assetTrend" := "a1" ]} {[ "bankAccounts" := "v1" ]}
             eq_refl bank_payload_synced eq_refl).
  by vm_compute.
Defined.

(** X20: in the lean revision the mark is honoured within a page life
    whether or not storage works: after [markAutoReloadNow] at one instant,
    the reload is allowed at another exactly when the closure does not see the
    feature disabled and one interval has elapsed since the mark. Blocked
    storage switches the feature off. A page that loads again with storage
    still blocked has forgotten the mark. With working storage the mark is an
    item outside the synced keys, so it does not change the snapshot. *)
Theorem X20_lean_mark_is_honoured_within_a_page_life (p : Lean.Panel)
    (marked now : N) (seen : bool) :
  Lean.canAutoReloadNow seen now (Lean.markAutoReloadNow marked p)
  = negb seen
    && (Lean.AUTO_RELOAD_MIN_INTERVAL_MS <=? Z.of_N now - Z.of_N marked)%Z
  ∧ (Lean.storage p = Lean.StorageBlocked →
     Lean.autoReloadDisabled (Lean.markAutoReloadNow marked p) = true
     ∧ Lean.canAutoReloadNow false now
         (Lean.pageLoad (Lean.markAutoReloadNow marked p))
       = (Lean.AUTO_RELOAD_MIN_INTERVAL_MS <=? Z.of_N now)%Z)
  ∧ (∀ items, Lean.storage p = Lean.StorageItems items →
       ∃ items', Lean.storage (Lean.markAutoReloadNow marked p)
                 = Lean.StorageItems items'
                 ∧ readLocalStoragePayload items'
                   = readLocalStoragePayload items).
Proof.
  unfold Lean.canAutoReloadNow, Lean.getLastAutoReloadAt,
    Lean.markAutoReloadNow, Lean.pageLoad.
  split; [|split].
  - destruct seen; [done|]. destruct (Lean.storage p) as [|items]; simpl.
    + done.
    + rewrite lookup_insert_eq.
      destruct (String.eqb_spec (String_of_N marked) "") as [Hs|_].
      * by destruct (String_of_N_nonempty marked).
      * by rewrite Number_String_of_N.
  - intros ->. simpl. split; [done|]. by rewrite Z.sub_0_r.
  - intros items ->. eexists. split; [reflexivity|].
    apply readLocalStoragePayload_insert_unsynced, reload_key_not_synced.
Qed.

(** ** MonthlyBudget.tsx *)

Lemma String_of_N_inj (m n : N) : String_of_N m = String_of_N n → m = n.
Proof.
  intros Heq. pose proof (Number_String_of_N m) as Hm.
  rewrite Heq, Number_String_of_N in Hm. injection Hm as Hm. lia.
Qed.

Lemma month_range (month : N) :
  (1 ≤ month ≤ 12)%N ↔ ∃ i, i ∈ seq 0 12 ∧ month = N.of_nat (i + 1).
Proof.
  split.
  - intros Hm. exists (N.to_nat month - 1). rewrite elem_of_seq. lia.
  - intros (i & Hi%elem_of_seq & ->). lia.
Qed.

Lemma monthly_key_synced (month : N) :
  MonthlyBudget.getStorageKey month ∈ SYNC_KEYS ↔ (1 ≤ month ≤ 12)%N.
Proof.
  unfold MonthlyBudget.getStorageKey, SYNC_KEYS.
  rewrite elem_of_app, list_elem_of_fmap, month_range. split.
  - intros [Hfixed|(i & Heq & Hi)].
    + repeat (apply elem_of_cons in Hfixed as [Hfixed|Hfixed];
              [simpl in Hfixed; discriminate Hfixed|]).
      by apply elem_of_nil in Hfixed.
    + exists i. split; [done|]. simpl in Heq. injection Heq as Heq.
      by apply String_of_N_inj.
  - intros (i & Hi & ->). right. by exists i.
Qed.

(** X21: the key under which the budget screen saves a month is one of the
    synced keys exactly for the months 1 to 12. *)
Theorem X21_budget_months_are_synced (month : N) :
  MonthlyBudget.getStorageKey month ∈ SYNC_KEYS ↔ (1 ≤ month ≤ 12)%N.
Proof. apply monthly_key_synced. Qed.

Lemma copy_loop_lookup (months : list N) (data : string)
    (ls : gmap string string) (k : string) :
  foldl (λ ls month,
           localStorage.setItem ("monthlyBudget_" +:+ String_of_N month) data ls)
        ls months !! k
  = if decide (k ∈ MonthlyBudget.getStorageKey <$> months) then Some data
    else ls !! k.
Proof.
  revert ls. induction months as [|m months IH]; intros ls; cbn [foldl].
  - by rewrite decide_False by apply not_elem_of_nil.
  - rewrite IH. unfold localStorage.setItem. rewrite fmap_cons.
    destruct (decide (k ∈ MonthlyBudget.getStorageKey <$> months)) as [Hin|Hnin].
    + by rewrite decide_True by (by right).
    + destruct (decide (k = MonthlyBudget.getStorageKey m)) as [->|Hne].
      * rewrite decide_True by (by left).
        apply lookup_insert_eq.
      * rewrite decide_False by (by intros [?|?]%elem_of_cons).
        by apply lookup_insert_ne.
Qed.

Lemma copied_keys (k : string) :
  k ∈ MonthlyBudget.getStorageKey <$> (map N.of_nat (seq 1 12))
  ↔ ∃ month, (1 ≤ month ≤ 12)%N ∧ k = MonthlyBudget.getStorageKey month.
Proof.
  rewrite list_elem_of_fmap. split.
  - intros (month & -> & Hin). exists month. split; [|done].
    apply list_elem_of_In, in_map_iff in Hin as (i & <- & Hi).
    apply in_seq in Hi. lia.
  - intros (month & Hm & ->). exists month. split; [done|].
    apply list_elem_of_In, in_map_iff. exists (N.to_nat month).
    split; [lia|]. apply in_seq. lia.
Qed.

(** X22: when February holds a non-empty text and the dialog is confirmed,
    [copyToAllMonths] leaves that text under the key of each of the twelve
    months and leaves every other key alone, in particular every key that is
    not synced, whether or not the text is JSON: the text is parsed after the
    loop, and the function ends with the state set and the closing alert when
    it parses and with the exception of [JSON.parse] when it does not. When
    the dialog is dismissed nothing changes. *)
Theorem X22_copy_fills_the_twelve_months (Data : Type)
    (JSON_parse : string → Completion Data) (ls : gmap string string)
    (data : string) :
  ls !! "monthlyBudget_2" = Some data → data ≠ "" →
  let copied := MonthlyBudget.copyToAllMonths JSON_parse true ls in
  MonthlyBudget.copyToAllMonths JSON_parse false ls
  = (MonthlyBudget.CopyDeclined, ls)
  ∧ copied.1 = match JSON_parse data with
               | Return parsed => MonthlyBudget.CopyDone parsed
               | Throw e => MonthlyBudget.CopyThrew e
               end
  ∧ (∀ month, (1 ≤ month ≤ 12)%N →
       copied.2 !! MonthlyBudget.getStorageKey month = Some data)
  ∧ (∀ k, (∀ month, (1 ≤ month ≤ 12)%N →
             k ≠ MonthlyBudget.getStorageKey month) →
       copied.2 !! k = ls !! k)
  ∧ (∀ k, k ∉ SYNC_KEYS → copied.2 !! k = ls !! k).
Proof.
  intros Hfeb Hdata copied. subst copied. apply String.eqb_neq in Hdata.
  unfold MonthlyBudget.copyToAllMonths, localStorage.getItem.
  rewrite Hfeb, Hdata. cbn [negb].
  set (filled := foldl _ ls _).
  assert (Hmonths : ∀ month, (1 ≤ month ≤ 12)%N →
            filled !! MonthlyBudget.getStorageKey month = Some data).
  { intros month Hm. subst filled.
    rewrite copy_loop_lookup, decide_True; [done|].
    apply copied_keys. by exists month. }
  assert (Hothers : ∀ k, (∀ month, (1 ≤ month ≤ 12)%N →
                            k ≠ MonthlyBudget.getStorageKey month) →
            filled !! k = ls !! k).
  { intros k Hk. subst filled.
    rewrite copy_loop_lookup, decide_False; [done|].
    intros (month & Hm & ->)%copied_keys. by apply (Hk month). }
  assert (Hunsynced : ∀ k, k ∉ SYNC_KEYS → filled !! k = ls !! k).
  { intros k Hk. apply Hothers. intros month Hm ->.
    by apply Hk, monthly_key_synced. }
  split; [done|]. by destruct (JSON_parse data).
Qed.

Lemma X22_witness :
  ({[ "monthlyBudget_2" := "{}"; "theme" := "dark" ]} : gmap string string)
    !! "monthlyBudget_2" = Some "{}"
  ∧ "{}" ≠ ""
  ∧ (MonthlyBudget.copyToAllMonths sample_parse true
       {[ "monthlyBudget_2" := "{}"; "theme" := "dark" ]}).1
    = match sample_parse "{}" with
      | Return parsed => MonthlyBudget.CopyDone parsed
      | Throw e => MonthlyBudget.CopyThrew e
      end.
Proof.
  split; [reflexivity|]. split; [discriminate|].
  exact (proj1 (proj2 (X22_copy_fills_the_twelve_months unit sample_parse
                         {[ "monthlyBudget_2" := "{}"; "theme" := "dark" ]}
                         "{}" eq_refl ltac:(discriminate)))).
Defined.

(** A February text that is JSON ends with the closing alert; one that is not
    ends with the exception, after all twelve months have been overwritten. *)
Example copy_of_february :
  (MonthlyBudget.copyToAllMonths sample_parse true
     {[ "monthlyBudget_2" := "{}" ]}).1 = MonthlyBudget.CopyDone tt
  ∧ (MonthlyBudget.copyToAllMonths sample_parse true
       {[ "monthlyBudget_2" := "feb" ]}).1 = MonthlyBudget.CopyThrew SyntaxError
  ∧ (MonthlyBudget.copyToAllMonths sample_parse true
       {[ "monthlyBudget_2" := "feb" ]}).2 !! "monthlyBudget_12" = Some "feb".
Proof. repeat split; by vm_compute. Qed.

(** Without data for February, or with the empty text, nothing is copied. *)
Example copy_without_february :
  MonthlyBudget.copyToAllMonths sample_parse true {[ "monthlyBudget_3" := "mar" ]}
  = (MonthlyBudget.CopyNoData, {[ "monthlyBudget_3" := "mar" ]})
  ∧ MonthlyBudget.copyToAllMonths sample_parse true {[ "monthlyBudget_2" := "" ]}
    = (MonthlyBudget.CopyNoData, {[ "monthlyBudget_2" := "" ]}).
Proof. split; reflexivity. Qed.

(** ** Pull and push together *)

(** X23: merging is a union on both sides. After a periodic pull of a
    payload of synced keys, a run of the push timer that uploads sends the
    remote payload laid over the old local snapshot: the row and the snapshot
    of localStorage are then the same payload, in which remote values win on
    shared keys and keys known to one side only are kept. *)
Theorem X23_pull_then_push_agree
    (JSON_stringify : gmap string string → string)
    (cl : Client) (userId : string) (now now2 : N) (typing : bool)
    (fault : option JsError) (p : Panel) (c c' : Cloud)
    (remote : gmap string string) :
  pullFromCloud (Some cl) userId None c = (Return (Some remote), c') →
  payloadSynced remote →
  let pulled := pullTick (Some cl) userId now None p c in
  let pushed := pushTick JSON_stringify (Some cl) userId typing now2 fault
                  pulled.1.2 pulled.2 in
  pushed.1.1 = Pushed →
  row_payload <$> user_state pushed.2 !! userId
  = Some (remote ∪ readLocalStoragePayload (localStore p))
  ∧ readLocalStoragePayload (localStore pushed.1.2)
    = remote ∪ readLocalStoragePayload (localStore p).
Proof.
  intros Hpull Hsynced pulled pushed Hpushed.
  assert (Hsnap : readLocalStoragePayload (localStore pulled.1.2)
                  = remote ∪ readLocalStoragePayload (localStore p)).
  { subst pulled. rewrite pullTick_localStore, Hpull. simpl.
    rewrite <- writeLocalStoragePayload_union. by apply read_write_synced. }
  destruct pushed as [[o p2] c2] eqn:Heq. simpl in Hpushed. subst o.
  apply pushTick_Pushed_inv in Heq as (_ & _ & _ & _ & -> & ->).
  cbn [fst snd user_state]. rewrite lookup_insert_eq. simpl.
  by rewrite Hsnap.
Qed.

Lemma X23_witness :
  pullFromCloud (Some sample_client) sample_user None
    (cloud_with {[ "bankAccounts" := "v1" ]} 7)
  = (Return (Some {[ "bankAccounts" := "v1" ]}),
     sent (Select sample_user) (cloud_with {[ "bankAccounts" := "v1" ]} 7))
  ∧ payloadSynced ({[ "bankAccounts" := "v1" ]} : gmap string string)
  ∧ (pushTick sample_stringify (Some sample_client) sample_user false 20 None
       (pullTick (Some sample_client) sample_user 10 None
          (mount {[ "assetTrend" := "a1" ]} session_empty)
          (cloud_with {[ "bankAccounts" := "v1" ]} 7)).1.2
       (pullTick (Some sample_client) sample_user 10 None
          (mount {[ "assetTrend" := "a1" ]} session_empty)
          (cloud_with {[ "bankAccounts" := "v1" ]} 7)).2).1.1 = Pushed
  ∧ readLocalStoragePayload
      (localStore
         (pushTick sample_stringify (Some sample_client) sample_user false 20
            None
            (pullTick (Some sample_client) sample_user 10 None
               (mount {[ "assetTrend" := "a1" ]} session_empty)
               (cloud_with {[ "bankAccounts" := "v1" ]} 7)).1.2
            (pullTick (Some sample_client) sample_user 10 None
               (mount {[ "assetTrend" := "a1" ]} session_empty)
               (cloud_with {[ "bankAccounts" := "v1" ]} 7)).2).1.2)
    = {[ "bankAccounts" := "v1" ]}
      ∪ readLocalStoragePayload
          (localStore (mount {[ "assetTrend" := "a1" ]} session_empty)).
Proof.
  assert (Hpushed :
    (pushTick sample_stringify (Some sample_client) sample_user false 20 None
       (pullTick (Some sample_client) sample_user 10 None
          (mount {[ "assetTrend" := "a1" ]} session_empty)
          (cloud_with {[ "bankAccounts" := "v1" ]} 7)).1.2
       (pullTick (Some sample_client) sample_user 10 None
          (mount {[ "assetTrend" := "a1" ]} session_empty)
          (cloud_with {[ "bankAccounts" := "v1" ]} 7)).2).1.1 = Pushed)
    by (by vm_compute).
  split; [reflexivity|]. split; [apply bank_payload_synced|].
  split; [exact Hpushed|].
  exact (proj2 (X23_pull_then_push_agree sample_stringify sample_client
                  sample_user 10 20 false None
                  (mount {[ "assetTrend" := "a1" ]} session_empty)
                  (cloud_with {[ "bankAccounts" := "v1" ]} 7)
                  (sent (Select sample_user)
                     (cloud_with {[ "bankAccounts" := "v1" ]} 7))
                  {[ "bankAccounts" := "v1" ]} eq_refl bank_payload_synced
                  Hpushed)).
Defined.

Lemma pushTick_cloud_cases JSON_stringify sb userId typing now fault p c :
  let c' := (pushTick JSON_stringify sb userId typing now fault p c).2 in
  c' = c
  ∨ c' = (pushToCloud sb userId (readLocalStoragePayload (localStore p)) now
            fault c).2.
Proof.
  unfold pushTick, pushTick_begin.
  destruct (pushingRef p); [by left|].
  destruct (String.eqb _ _); [by left|].
  destruct typing; [by left|].
  right. by destruct (pushToCloud _ _ _ _ _ _) as [[[]|e] c'].
Qed.

(** X24: the two periodic timers keep to their side. The pull never changes
    a row of the remote table and never sends an upsert; the push never
    changes localStorage, session storage or the reload timers, and when it
    changes the row of the user it is to the snapshot of localStorage. *)
Theorem X24_pull_and_push_keep_to_their_side
    (JSON_stringify : gmap string string → string) (sb : option Client)
    (userId : string) (typing : bool) (now : N) (fault : option JsError)
    (p : Panel) (c : Cloud) :
  let pulled := pullTick sb userId now fault p c in
  let pushed := pushTick JSON_stringify sb userId typing now fault p c in
  user_state pulled.2 = user_state c
  ∧ upserts pulled.2 = upserts c
  ∧ localStore pushed.1.2 = localStore p
  ∧ sessionStore pushed.1.2 = sessionStore p
  ∧ reloadTimers pushed.1.2 = reloadTimers p
  ∧ (user_state pushed.2 = user_state c
     ∨ user_state pushed.2
       = <[userId := {| row_payload := readLocalStoragePayload (localStore p);
                        updated_at := now |}]> (user_state c)).
Proof.
  intros pulled pushed. subst pulled pushed.
  rewrite pullTick_cloud, pushTick_localStore.
  destruct (pushTick_throttle JSON_stringify sb userId typing now fault p c)
    as [-> ->].
  assert (Hpull : user_state (pullFromCloud sb userId fault c).2 = user_state c
                  ∧ upserts (pullFromCloud sb userId fault c).2 = upserts c).
  { unfold pullFromCloud. destruct sb as [cl|]; [|done].
    destruct fault as [e|]; simpl; [by rewrite upserts_Select|].
    destruct (user_state c !! userId); simpl; by rewrite upserts_Select. }
  destruct Hpull as [-> ->]. repeat split.
  destruct (pushTick_cloud_cases JSON_stringify sb userId typing now fault p c)
    as [-> | ->]; [by left|].
  unfold pushToCloud. destruct sb as [cl|]; [|by left].
  destruct fault as [e|]; simpl; [by left | by right].
Qed.
